(** * Risk matrix: shallow embedding of [feng_xian_ju_zhen.py] and
    [risk_matrix_api.py], and the properties of their specification.

    Layout: [Py] holds the Python built-ins the two programs call (strings,
    insertion-ordered dicts, the stable [sorted], exceptions); [Console] is
    the interactive script; [Api] is the FastAPI module, whose global
    [current_risk_model] is threaded explicitly through a state-and-exception
    monad.  The lemmas and the theorems follow the definitions. *)

From Stdlib Require Import ZArith List String Ascii Bool Lia.
From Stdlib Require Import Permutation Sorted DecimalString.
Import ListNotations.

Local Open Scope string_scope.
Local Open Scope list_scope.
Local Open Scope Z_scope.

Infix "+++" := String.append (right associativity, at level 60).

(* ================================================================== *)
(** ** Python built-ins *)

Module Py.

(** *** Strings: [str] is modelled by its UTF-8 bytes *)

Definition ascii_lower (c : ascii) : ascii :=
  let n := nat_of_ascii c in
  if ((65 <=? n) && (n <=? 90))%nat then ascii_of_nat (n + 32) else c.

(** [s.lower()].  Only the ASCII letters are mapped.  The program compares
    the result with the ASCII words [probability], [severity] and [level]
    only, and no character outside ASCII lowers to one of their letters
    (U+212A lowers to [k]; U+0130 to [i] followed by a combining mark), so
    every such comparison has the outcome it has in Python. *)
Fixpoint lower (s : string) : string :=
  match s with
  | EmptyString => EmptyString
  | String c r => String (ascii_lower c) (lower r)
  end.

Definition byte_is (c : ascii) (n : nat) : bool := (nat_of_ascii c =? n)%nat.

Definition byte_in (c : ascii) (lo hi : nat) : bool :=
  let n := nat_of_ascii c in ((lo <=? n) && (n <=? hi))%nat.

(** The characters of [str.isspace], by the length of their encoding:
    U+0009..U+000D, U+001C..U+0020; U+0085, U+00A0; U+1680, U+2000..U+200A,
    U+2028, U+2029, U+202F, U+205F, U+3000. *)
Definition space1 (a : ascii) : bool := byte_in a 9 13 || byte_in a 28 32.

Definition space2 (a b : ascii) : bool :=
  byte_is a 194 && (byte_is b 133 || byte_is b 160).

Definition space3 (a b c : ascii) : bool :=
  (byte_is a 225 && byte_is b 154 && byte_is c 128)
  || (byte_is a 226 && byte_is b 128
      && (byte_in c 128 138 || byte_is c 168 || byte_is c 169 || byte_is c 175))
  || (byte_is a 226 && byte_is b 129 && byte_is c 159)
  || (byte_is a 227 && byte_is b 128 && byte_is c 128).

(** Drops the whitespace characters at the front; [sp2] and [sp3] take the
    bytes in the order they stand in the string. *)
Fixpoint lstrip_with (sp2 : ascii -> ascii -> bool)
  (sp3 : ascii -> ascii -> ascii -> bool) (s : string) : string :=
  match s with
  | EmptyString => EmptyString
  | String a r1 =>
      if space1 a then lstrip_with sp2 sp3 r1
      else
        match r1 with
        | EmptyString => s
        | String b r2 =>
            if sp2 a b then lstrip_with sp2 sp3 r2
            else
              match r2 with
              | EmptyString => s
              | String c r3 => if sp3 a b c then lstrip_with sp2 sp3 r3 else s
              end
        end
  end.

Fixpoint rev_append (s acc : string) : string :=
  match s with
  | EmptyString => acc
  | String c r => rev_append r (String c acc)
  end.

Definition rev (s : string) : string := rev_append s EmptyString.

Definition lstrip (s : string) : string := lstrip_with space2 space3 s.

Definition rstrip (s : string) : string :=
  rev (lstrip_with (fun a b => space2 b a) (fun a b c => space3 c b a) (rev s)).

(** [s.strip()] *)
Definition strip (s : string) : string := rstrip (lstrip s).

(** [s.endswith(suffix)] *)
Definition endswith (s suffix : string) : bool :=
  let n := String.length s in
  let k := String.length suffix in
  if (k <=? n)%nat then String.eqb (substring (n - k) k s) suffix else false.

(** [sep.join(l)] *)
Definition join (sep : string) (l : list string) : string := String.concat sep l.

(** [str(z)] for an [int] *)
Definition str_of_int (z : Z) : string := NilZero.string_of_int (Z.to_int z).

Definition backslash : ascii := ascii_of_nat 92.
Definition squote : ascii := ascii_of_nat 39.
Definition dquote : ascii := ascii_of_nat 34.

Definition hex_digit (n : nat) : ascii :=
  if (n <? 10)%nat then ascii_of_nat (48 + n) else ascii_of_nat (87 + n).

Fixpoint contains (c : ascii) (s : string) : bool :=
  match s with
  | EmptyString => false
  | String a r => Ascii.eqb a c || contains c r
  end.

Definition repr_char (q c : ascii) : string :=
  let n := nat_of_ascii c in
  if Ascii.eqb c backslash then String backslash (String backslash EmptyString)
  else if Ascii.eqb c q then String backslash (String q EmptyString)
  else if (n =? 10)%nat then String backslash "n"
  else if (n =? 13)%nat then String backslash "r"
  else if (n =? 9)%nat then String backslash "t"
  else if ((n <? 32) || (n =? 127))%nat
       then String backslash
              (String "x" (String (hex_digit (n / 16)) (String (hex_digit (n mod 16)) EmptyString)))
  else String c EmptyString.

Fixpoint repr_body (q : ascii) (s : string) : string :=
  match s with
  | EmptyString => EmptyString
  | String c r => repr_char q c +++ repr_body q r
  end.

(** [repr(s)] for a [str]: single quotes unless the text has a single and no
    double quote; backslash, the quote and the control characters escaped
    (bytes of characters outside ASCII are kept). *)
Definition repr (s : string) : string :=
  let q := if contains squote s && negb (contains dquote s) then dquote else squote in
  String q (repr_body q s +++ String q EmptyString).

(** *** Exceptions *)

(** [HTTPException(status_code, detail)], [KeyError(key)], and any other
    exception [e], kept by its text [str(e)]. *)
Inductive exn : Type :=
| HTTPException (status_code : Z) (detail : string)
| KeyError (key : string)
| Error (message : string).

(** [str(e)] *)
Definition str_of_exn (e : exn) : string :=
  match e with
  | HTTPException _ detail => detail
  | KeyError key => repr key
  | Error message => message
  end.

(** [isinstance(e, HTTPException)] *)
Definition is_HTTPException (e : exn) : bool :=
  match e with
  | HTTPException _ _ => true
  | _ => false
  end.

Inductive result (A : Type) : Type :=
| Return (a : A)
| Raise (e : exn).

Arguments Return {A} a.
Arguments Raise {A} e.

(** *** Dicts from names to ints: association lists in insertion order *)

Definition dict : Type := list (string * Z).

(** [d.get(k)] *)
Fixpoint dict_get (d : dict) (k : string) : option Z :=
  match d with
  | [] => None
  | (k', v) :: d' => if String.eqb k' k then Some v else dict_get d' k
  end.

(** [k in d] *)
Definition dict_contains (d : dict) (k : string) : bool :=
  match dict_get d k with
  | Some _ => true
  | None => false
  end.

(** [d[k]] *)
Definition dict_getitem (d : dict) (k : string) : result Z :=
  match dict_get d k with
  | Some v => Return v
  | None => Raise (KeyError k)
  end.

(** [d[k] = v]: a present key keeps its place, a new key goes last. *)
Fixpoint dict_setitem (d : dict) (k : string) (v : Z) : dict :=
  match d with
  | [] => [(k, v)]
  | (k', v') :: d' =>
      if String.eqb k' k then (k', v) :: d' else (k', v') :: dict_setitem d' k v
  end.

(** [d.keys()] *)
Definition dict_keys (d : dict) : list string := map fst d.

(** *** [sorted(l, key=key)]: stable, ascending *)

Section Sorted.
Context {A : Type} (key : A -> Z).

Fixpoint insert_by (x : A) (l : list A) : list A :=
  match l with
  | [] => [x]
  | y :: l' => if key x <=? key y then x :: l else y :: insert_by x l'
  end.

Fixpoint sorted_by (l : list A) : list A :=
  match l with
  | [] => []
  | x :: l' => insert_by x (sorted_by l')
  end.

(** The order the result is in. *)
Definition key_le (a b : A) : Prop := key a <= key b.

End Sorted.

(** *** What [str(x)] and [int(x)] give on the values of a table cell *)

Class PyValue (A : Type) : Type := {
  (** [str(x)] *)
  py_str : A -> string;
  (** [int(x)]: the integer, or the text [str(e)] of the exception raised
      ([ValueError], [TypeError], [OverflowError]) *)
  py_int : A -> Z + string
}.

End Py.

(* ================================================================== *)
(** ** feng_xian_ju_zhen.py: the console program *)

Module Console.
Import Py.

Definition probability : dict :=
  [("极少发生", 1); ("很少发生", 2); ("偶尔发生", 3); ("有时发生", 4); ("经常发生", 5)].

Definition severity : dict :=
  [("轻微", 1); ("轻度", 2); ("严重", 3); ("灾难", 4)].

Definition calculate_risk_value (prob sev : Z) : Z := prob * sev.

Definition determine_risk_level (risk_value : Z) : string :=
  if risk_value <=? 4 then "低风险"
  else if (5 <=? risk_value) && (risk_value <=? 9) then "中风险"
  else if (10 <=? risk_value) && (risk_value <=? 15) then "高风险"
  else "极高风险".

(** The terminal: the lines still to be typed, and what was written so far
    (one entry for each [print], which ends its line, and for each prompt of
    [input]). *)
Record terminal : Type := {
  stdin : list string;
  stdout : list string
}.

Definition newline : string := String (ascii_of_nat 10) EmptyString.

Definition print (s : string) (t : terminal) : terminal :=
  {| stdin := stdin t; stdout := stdout t ++ [s +++ newline] |}.

Definition print_levels (table : dict) (t : terminal) : terminal :=
  fold_left (fun t level => print ("- " +++ level) t) (dict_keys table) t.

(** The [while True] loop of [get_probability_level] and
    [get_severity_level]: one round for each line typed; [input] raises
    [EOFError] when no line is left. *)
Fixpoint ask (prompt : string) (table : dict) (lines : list string)
  (out : list string) : result Z * terminal :=
  match lines with
  | [] => (Raise (Error "EOF when reading a line"),
           {| stdin := []; stdout := out ++ [prompt] |})
  | level :: rest =>
      if dict_contains table level
      then (dict_getitem table level, {| stdin := rest; stdout := out ++ [prompt] |})
      else ask prompt table rest ((out ++ [prompt]) ++ ["输入无效，请重新输入。" +++ newline])
  end.

Definition get_probability_level (t : terminal) : result Z * terminal :=
  let t := print_levels probability (print "概率等级：" t) in
  ask "请输入概率等级：" probability (stdin t) (stdout t).

Definition get_severity_level (t : terminal) : result Z * terminal :=
  let t := print_levels severity (print "后果等级：" t) in
  ask "请输入后果等级：" severity (stdin t) (stdout t).

Definition main (t : terminal) : result unit * terminal :=
  let t := print "风险评估程序" t in
  match get_probability_level t with
  | (Raise e, t) => (Raise e, t)
  | (Return prob, t) =>
      match get_severity_level t with
      | (Raise e, t) => (Raise e, t)
      | (Return sev, t) =>
          let risk_value := calculate_risk_value prob sev in
          let risk_level := determine_risk_level risk_value in
          let t := print (newline +++ "风险值：" +++ str_of_int risk_value) t in
          let t := print ("风险等级：" +++ risk_level) t in
          (Return tt, t)
      end
  end.

End Console.

(* ================================================================== *)
(** ** risk_matrix_api.py: the web API *)

Module Api.
Import Py.

(** An entry of the [levels] list: [{"name": ..., "threshold": ...}]. *)
Record level : Type := {
  name : string;
  threshold : Z
}.

(** The risk model: [{"probability": {...}, "severity": {...}, "levels": [...]}]. *)
Record risk_model : Type := {
  probability : dict;
  severity : dict;
  levels : list level
}.

Definition DEFAULT_RISK_MODEL : risk_model :=
  {| probability :=
       [("极少发生", 1); ("很少发生", 2); ("偶尔发生", 3); ("有时发生", 4); ("经常发生", 5)];
     severity := [("轻微", 1); ("轻度", 2); ("严重", 3); ("灾难", 4)];
     levels :=
       [ {| name := "低风险"; threshold := 4 |};
         {| name := "中风险"; threshold := 9 |};
         {| name := "高风险"; threshold := 15 |};
         {| name := "极高风险"; threshold := 999 |} ] |}.

(** The value of the global [current_risk_model] when the module is loaded
    (a copy of the default: the same three entries). *)
Definition current_risk_model_at_start : risk_model := DEFAULT_RISK_MODEL.

(** *** Computations over the global [current_risk_model] *)

Definition M (A : Type) : Type := risk_model -> result A * risk_model.

Definition ret {A : Type} (a : A) : M A := fun g => (Return a, g).

Definition raise {A : Type} (e : exn) : M A := fun g => (Raise e, g).

Definition bind {A B : Type} (c : M A) (k : A -> M B) : M B :=
  fun g =>
    match c g with
    | (Return a, g') => k a g'
    | (Raise e, g') => (Raise e, g')
    end.

(** Reading the global. *)
Definition current_risk_model : M risk_model := fun g => (Return g, g).

(** [global current_risk_model; current_risk_model = m] *)
Definition assign_current_risk_model (m : risk_model) : M unit :=
  fun _ => (Return tt, m).

(** A computation that does not touch the global. *)
Definition lift {A : Type} (r : result A) : M A := fun g => (r, g).

(** [try: body / except Exception as e: handler e] *)
Definition try_except {A : Type} (body : M A) (handler : exn -> M A) : M A :=
  fun g =>
    match body g with
    | (Return a, g') => (Return a, g')
    | (Raise e, g') => handler e g'
    end.

Notation "x <- c ;; k" := (bind c (fun x => k))
  (at level 61, c at next level, right associativity).

(** [for x in l: out.append(body x)], the list [out] returned. *)
Fixpoint for_each {A B : Type} (body : A -> M B) (l : list A) : M (list B) :=
  match l with
  | [] => ret []
  | x :: l' => y <- body x ;; ys <- for_each body l' ;; ret (y :: ys)
  end.

(** *** Risk value and risk level *)

Definition calculate_risk_value (prob_val sev_val : Z) : Z := prob_val * sev_val.

(** The [for level in sorted_levels] loop of [determine_risk_level]. *)
Fixpoint first_level (sorted_levels : list level) (risk_value : Z) : string :=
  match sorted_levels with
  | [] => "未知风险"
  | level :: rest =>
      if risk_value <=? threshold level then name level
      else first_level rest risk_value
  end.

Definition determine_risk_level (risk_value : Z) : M string :=
  model <- current_risk_model ;;
  let sorted_levels := sorted_by threshold (levels model) in
  ret (first_level sorted_levels risk_value).

(** *** Request and response bodies *)

Record RiskAssessmentRequest : Type := {
  request_probability : string;
  request_severity : string
}.

Record RiskAssessmentResponse : Type := {
  risk_value : Z;
  risk_level : string
}.

Record MatrixCell : Type := {
  cell_probability : string;
  cell_severity : string;
  cell_risk_value : Z;
  cell_risk_level : string
}.

Record MatrixVisualizationResponse : Type := {
  probability_axis : list string;
  severity_axis : list string;
  matrix_data : list (list MatrixCell)
}.

(** *** GET /risk-matrix/levels *)

Definition get_risk_levels : M (dict * dict) :=
  model <- current_risk_model ;;
  ret (probability model, severity model).

(** *** POST /risk-matrix/assess *)

Definition assess_risk (request : RiskAssessmentRequest) : M RiskAssessmentResponse :=
  model <- current_risk_model ;;
  let prob_levels := probability model in
  let sev_levels := severity model in
  if negb (dict_contains prob_levels (request_probability request))
     || negb (dict_contains sev_levels (request_severity request))
  then raise (HTTPException 400 "提供的概率或后果等级在当前配置中不存在。")
  else
    prob_val <- lift (dict_getitem prob_levels (request_probability request)) ;;
    sev_val <- lift (dict_getitem sev_levels (request_severity request)) ;;
    let risk_value := calculate_risk_value prob_val sev_val in
    risk_level <- determine_risk_level risk_value ;;
    ret {| risk_value := risk_value; risk_level := risk_level |}.

(** *** GET /risk-matrix/visualize *)

(** The sort key [prob_map.get]: the names sorted are the dict's own keys,
    for which [get] gives their rank (never [None]). *)
Definition rank (d : dict) (k : string) : Z :=
  match dict_get d k with
  | Some v => v
  | None => 0
  end.

Definition get_matrix_visualization : M MatrixVisualizationResponse :=
  model <- current_risk_model ;;
  let prob_map := probability model in
  let sev_map := severity model in
  let prob_axis := sorted_by (rank prob_map) (dict_keys prob_map) in
  let sev_axis := sorted_by (rank sev_map) (dict_keys sev_map) in
  matrix <-
    for_each
      (fun prob_name =>
         for_each
           (fun sev_name =>
              prob_val <- lift (dict_getitem prob_map prob_name) ;;
              sev_val <- lift (dict_getitem sev_map sev_name) ;;
              let risk_val := calculate_risk_value prob_val sev_val in
              risk_lvl <- determine_risk_level risk_val ;;
              ret {| cell_probability := prob_name;
                     cell_severity := sev_name;
                     cell_risk_value := risk_val;
                     cell_risk_level := risk_lvl |})
           sev_axis)
      prob_axis ;;
  ret {| probability_axis := prob_axis;
         severity_axis := sev_axis;
         matrix_data := matrix |}.

(** *** POST /risk-matrix/configure *)

(** What [new_model.get(key)] gives, and its truth value. *)
Inductive bucket : Type :=
| Dict (d : dict)
| List (l : list level)
| NoBucket.

Definition model_get (m : risk_model) (key : string) : bucket :=
  if String.eqb key "probability" then Dict (probability m)
  else if String.eqb key "severity" then Dict (severity m)
  else if String.eqb key "levels" then List (levels m)
  else NoBucket.

Definition truthy (b : bucket) : bool :=
  match b with
  | Dict [] => false
  | Dict _ => true
  | List [] => false
  | List _ => true
  | NoBucket => false
  end.

Definition required_columns : list string := ["类型"; "名称"; "数值"].

Definition empty_model : risk_model :=
  {| probability := []; severity := []; levels := [] |}.

Definition incomplete_message (missing_types : list string) : string :=
  "配置不完整，您的Excel文件中缺少以下类型的数据行: " +++ join ", " missing_types
  +++ "。请检查'类型'列是否存在拼写错误或缺少对应行。".

Section Configure.
Context {cell : Type} `{PyValue cell}.

(** A row of the data frame, by the cells under the three required headers. *)
Record row : Type := {
  type_cell : cell;
  name_cell : cell;
  value_cell : cell
}.

(** The data frame [pd.read_excel] gives: the header row and the rows. *)
Record DataFrame : Type := {
  columns : list string;
  rows : list row
}.

(** The upload: its file name, and what [pd.read_excel] makes of its
    contents (a data frame, or an exception, kept by its text). *)
Record UploadFile : Type := {
  filename : string;
  read_excel : DataFrame + string
}.

(** [int(row['数值'])] *)
Definition int_of (c : cell) : result Z :=
  match py_int c with
  | inl z => Return z
  | inr message => Raise (Error message)
  end.

(** [str(row['类型']).lower().strip()] *)
Definition row_type (r : row) : string := strip (lower (py_str (type_cell r))).

(** The body of [for _, row in df.iterrows()]. *)
Definition load_row (new_model : risk_model) (r : row) : result risk_model :=
  let row_type := row_type r in
  let name := py_str (name_cell r) in
  match int_of (value_cell r) with
  | Raise e => Raise e
  | Return value =>
      if String.eqb row_type "probability"
      then Return {| probability := dict_setitem (probability new_model) name value;
                     severity := severity new_model;
                     levels := levels new_model |}
      else if String.eqb row_type "severity"
      then Return {| probability := probability new_model;
                     severity := dict_setitem (severity new_model) name value;
                     levels := levels new_model |}
      else if String.eqb row_type "level"
      then Return {| probability := probability new_model;
                     severity := severity new_model;
                     levels := levels new_model ++ [ {| name := name; threshold := value |} ] |}
      else Return new_model
  end.

Fixpoint load_rows (new_model : risk_model) (rs : list row) : result risk_model :=
  match rs with
  | [] => Return new_model
  | r :: rest =>
      match load_row new_model r with
      | Return new_model' => load_rows new_model' rest
      | Raise e => Raise e
      end
  end.

Definition missing_types_of (new_model : risk_model) : list string :=
  filter (fun key => negb (truthy (model_get new_model key)))
         ["probability"; "severity"; "levels"].

Definition has_columns (df : DataFrame) : bool :=
  forallb (fun col => existsb (String.eqb col) (columns df)) required_columns.

(** [file.filename.endswith('.xlsx') or file.filename.endswith('.xls')] *)
Definition has_excel_extension (file : UploadFile) : bool :=
  endswith (filename file) ".xlsx" || endswith (filename file) ".xls".

(** The endpoint.  The extension is checked before the [try]; inside it an
    [HTTPException] is raised again as it is and any other exception becomes
    the 500 answer.  The response on success is given by its message. *)
Definition update_risk_model_from_excel (file : UploadFile) : M string :=
  if negb (has_excel_extension file)
  then raise (HTTPException 400 "文件格式错误，请上传一个标准的 .xlsx Excel 文件。")
  else
    try_except
      (df <- lift (match read_excel file with
                   | inl df => Return df
                   | inr message => Raise (Error message)
                   end) ;;
       if negb (has_columns df)
       then raise (HTTPException 400
                     ("Excel文件必须包含以下中文表头: " +++ join ", " required_columns))
       else
         new_model <- lift (load_rows empty_model (rows df)) ;;
         let missing_types := missing_types_of new_model in
         match missing_types with
         | _ :: _ => raise (HTTPException 400 (incomplete_message missing_types))
         | [] =>
             _ <- assign_current_risk_model new_model ;;
             ret "风险模型配置已成功更新。"
         end)
      (fun e =>
         if is_HTTPException e then raise e
         else raise (HTTPException 500 ("处理文件时发生未知错误: " +++ str_of_exn e))).

End Configure.

Arguments row cell : clear implicits.
Arguments DataFrame cell : clear implicits.
Arguments UploadFile cell : clear implicits.

End Api.

(* ================================================================== *)
(** ** The cells of a worksheet *)

Module Sheet.
Import Py.

(** The values a cell of the data frame holds: a text, a whole number held
    as an [int], or nothing (an empty cell, which pandas reads as the float
    NaN).  Floats other than NaN are outside this type: a fractional value,
    which [int()] truncates, and the whole numbers of a numeric column that
    also has an empty cell, whose text has a decimal point. *)
Inductive cell : Type :=
| Text (s : string)
| Number (z : Z)
| Blank.

Definition is_digit (c : ascii) : bool := byte_in c 48 57.

Definition digit_value (c : ascii) : Z := Z.of_nat (nat_of_ascii c - 48).

(** Decimal digits, single underscores allowed between two digits. *)
Fixpoint parse_digits (s : string) (acc : Z) (after_digit : bool) : option Z :=
  match s with
  | EmptyString => if after_digit then Some acc else None
  | String c r =>
      if is_digit c then parse_digits r (10 * acc + digit_value c) true
      else if Ascii.eqb c "_" && after_digit then parse_digits r acc false
      else None
  end.

(** [int(s)] for a text in base 10: blanks around, a sign, digits.  (The
    digits outside ASCII, which Python reads too, and its limit on the
    number of digits are left out.) *)
Definition parse_int (s : string) : option Z :=
  match strip s with
  | String "-" r => option_map Z.opp (parse_digits r 0 false)
  | String "+" r => parse_digits r 0 false
  | t => parse_digits t 0 false
  end.

#[export] Instance cell_value : PyValue cell := {
  py_str c :=
    match c with
    | Text s => s
    | Number z => str_of_int z
    | Blank => "nan"
    end;
  py_int c :=
    match c with
    | Text s =>
        match parse_int s with
        | Some z => inl z
        | None => inr ("invalid literal for int() with base 10: " +++ repr s)
        end
    | Number z => inl z
    | Blank => inr "cannot convert float NaN to integer"
    end
}.

Definition mk_row (t n v : cell) : Api.row cell :=
  {| Api.type_cell := t; Api.name_cell := n; Api.value_cell := v |}.

Definition workbook (file_name : string) (rs : list (Api.row cell)) : Api.UploadFile cell :=
  {| Api.filename := file_name;
     Api.read_excel := inl {| Api.columns := Api.required_columns; Api.rows := rs |} |}.

(** Sample sheets: a complete configuration; a remark row with no value;
    a configuration whose severity row has no name, with a row of no type;
    a configuration without level rows. *)
Definition complete_rows : list (Api.row cell) :=
  [ mk_row (Text "probability") (Text "甲") (Number 1);
    mk_row (Text "severity") (Text "X") (Number 2);
    mk_row (Text "level") (Text "low") (Number 10) ].

Definition remark_row : Api.row cell :=
  mk_row (Text "remark") (Text "see the manual") Blank.

Definition nameless_rows : list (Api.row cell) :=
  [ mk_row (Text "probability") (Text "甲") (Number 1);
    mk_row (Text "severity") Blank (Number 2);
    mk_row Blank (Text "乙") (Number 3);
    mk_row (Text "level") (Text "low") (Number 10) ].

Definition no_level_rows : list (Api.row cell) :=
  [ mk_row (Text " Probability") (Text "甲") (Number 1);
    mk_row (Text "probability") (Text "乙") (Number 3);
    mk_row (Text "probability") (Text "甲") (Number 2);
    mk_row (Text "SEVERITY ") (Text "X") (Number 2);
    mk_row (Text "levels") (Text "low") (Number 10) ].

End Sheet.

(* ================================================================== *)
(** ** The loader's buckets, as the specification words them *)

Module LoaderSpec.
Import Py.

Section Buckets.
Context {cell : Type} `{PyValue cell}.

(** The (name, value) pairs of the rows of one type, in the order of the
    rows. *)
Definition entries_of (kind : string) (rs : list (Api.row cell)) : list (string * Z) :=
  flat_map
    (fun r =>
       if String.eqb (Api.row_type r) kind
       then match py_int (Api.value_cell r) with
            | inl z => [(py_str (Api.name_cell r), z)]
            | inr _ => []
            end
       else [])
    rs.

(** The value a name has after all rows: that of its last entry. *)
Definition last_value (entries : list (string * Z)) (n : string) : option Z :=
  dict_get (List.rev entries) n.

Definition recognized (r : Api.row cell) : bool :=
  String.eqb (Api.row_type r) "probability"
  || String.eqb (Api.row_type r) "severity"
  || String.eqb (Api.row_type r) "level".

Definition convertible (r : Api.row cell) : Prop :=
  exists z, py_int (Api.value_cell r) = inl z.

Definition unconvertible (r : Api.row cell) : Prop :=
  exists message, py_int (Api.value_cell r) = inr message.

End Buckets.

(** The dict after the assignments [d[n] = v] of the entries, in order. *)
Definition dict_update (d : dict) (entries : list (string * Z)) : dict :=
  fold_left (fun d e => dict_setitem d (fst e) (snd e)) entries d.

(** The level of an entry. *)
Definition level_of (e : string * Z) : Api.level :=
  {| Api.name := fst e; Api.threshold := snd e |}.

(** Texts made of ASCII blanks only. *)
Fixpoint blank (s : string) : bool :=
  match s with
  | EmptyString => true
  | String c r => space1 c && blank r
  end.

(** The names of the empty buckets, in the order probability, severity,
    levels. *)
Definition empty_buckets (m : Api.risk_model) : list string :=
  (match Api.probability m with [] => ["probability"] | _ => [] end)
  ++ (match Api.severity m with [] => ["severity"] | _ => [] end)
  ++ (match Api.levels m with [] => ["levels"] | _ => [] end).

End LoaderSpec.

(* ================================================================== *)
(** ** The matrix cell, as the specification words it *)

Module MatrixSpec.
Import Py.

(** The cell for a probability name and a severity name: the two names, the
    product of their ranks, and the level of that product. *)
Definition expected_cell (g : Api.risk_model) (p s : string) : Api.MatrixCell :=
  {| Api.cell_probability := p;
     Api.cell_severity := s;
     Api.cell_risk_value := Api.rank (Api.probability g) p * Api.rank (Api.severity g) s;
     Api.cell_risk_level :=
       Api.first_level (sorted_by Api.threshold (Api.levels g))
         (Api.rank (Api.probability g) p * Api.rank (Api.severity g) s) |}.

End MatrixSpec.

(* ================================================================== *)
(** ** Lemmas on the built-ins *)

Import Py Api.

Section SortedFacts.
Context {A : Type} (key : A -> Z).

Lemma insert_by_perm (x : A) (l : list A) :
  Permutation (insert_by key x l) (x :: l).
Proof.
  induction l as [| y l IH]; simpl.
  - apply Permutation_refl.
  - destruct (key x <=? key y).
    + apply Permutation_refl.
    + apply perm_trans with (y :: x :: l).
      * now apply perm_skip.
      * apply perm_swap.
Qed.

Lemma sorted_by_perm (l : list A) : Permutation (sorted_by key l) l.
Proof.
  induction l as [| x l IH]; simpl.
  - apply perm_nil.
  - apply perm_trans with (x :: sorted_by key l).
    + apply insert_by_perm.
    + now apply perm_skip.
Qed.

Lemma sorted_by_length (l : list A) :
  List.length (sorted_by key l) = List.length l.
Proof. apply Permutation_length, sorted_by_perm. Qed.

Lemma sorted_by_In (l : list A) (x : A) : In x (sorted_by key l) <-> In x l.
Proof.
  split; apply Permutation_in.
  - apply sorted_by_perm.
  - apply Permutation_sym, sorted_by_perm.
Qed.

Lemma insert_by_sorted (x : A) (l : list A) :
  StronglySorted (key_le key) l -> StronglySorted (key_le key) (insert_by key x l).
Proof.
  induction 1 as [| y l Hl IH Hy]; simpl.
  - repeat constructor.
  - destruct (key x <=? key y) eqn:E.
    + apply Z.leb_le in E.
      constructor; [now constructor |].
      constructor; [exact E |].
      eapply Forall_impl; [| exact Hy].
      unfold key_le; intros; lia.
    + apply Z.leb_gt in E.
      constructor; [exact IH |].
      apply Forall_forall; intros z Hz.
      apply (Permutation_in _ (insert_by_perm x l)) in Hz.
      destruct Hz as [<- | Hz].
      * unfold key_le; lia.
      * rewrite Forall_forall in Hy; now apply Hy.
Qed.

Lemma sorted_by_sorted (l : list A) : StronglySorted (key_le key) (sorted_by key l).
Proof.
  induction l as [| x l IH]; simpl.
  - constructor.
  - now apply insert_by_sorted.
Qed.

(** Stability: the elements of one key keep the order they had. *)
Lemma insert_by_filter (t : Z) (x : A) (l : list A) :
  filter (fun a => key a =? t) (insert_by key x l)
  = filter (fun a => key a =? t) (x :: l).
Proof.
  induction l as [| y l IH]; [reflexivity |].
  simpl insert_by.
  destruct (key x <=? key y) eqn:E; [reflexivity |].
  apply Z.leb_gt in E.
  change (filter (fun a => key a =? t) (y :: insert_by key x l))
    with (if key y =? t then y :: filter (fun a => key a =? t) (insert_by key x l)
          else filter (fun a => key a =? t) (insert_by key x l)).
  rewrite IH; simpl.
  destruct (key x =? t) eqn:Ex, (key y =? t) eqn:Ey; try reflexivity.
  apply Z.eqb_eq in Ex, Ey; lia.
Qed.

Lemma sorted_by_stable (t : Z) (l : list A) :
  filter (fun a => key a =? t) (sorted_by key l) = filter (fun a => key a =? t) l.
Proof.
  induction l as [| x l IH]; [reflexivity |].
  simpl sorted_by; rewrite insert_by_filter.
  simpl; now rewrite IH.
Qed.

End SortedFacts.

(** *** The loop of [determine_risk_level] *)

Lemma first_level_scan (sl : list level) (v : Z) :
  (exists before l after,
      sl = before ++ l :: after
      /\ Forall (fun x => threshold x < v) before
      /\ v <= threshold l
      /\ first_level sl v = name l)
  \/ (Forall (fun x => threshold x < v) sl /\ first_level sl v = "未知风险").
Proof.
  induction sl as [| l sl IH]; simpl.
  - right; split; [constructor | reflexivity].
  - destruct (v <=? threshold l) eqn:E.
    + apply Z.leb_le in E.
      left; exists [], l, sl; repeat split; auto.
    + apply Z.leb_gt in E.
      destruct IH as [(before & l' & after & -> & Hb & Hl & Hn) | [Hall Hn]].
      * left; exists (l :: before), l', after; repeat split; auto.
      * right; split; auto.
Qed.

Lemma determine_risk_level_eq (v : Z) (g : risk_model) :
  determine_risk_level v g
  = (Return (first_level (sorted_by threshold (levels g)) v), g).
Proof. reflexivity. Qed.

Lemma default_bands (v : Z) :
  first_level (sorted_by threshold (levels DEFAULT_RISK_MODEL)) v
  = if v <=? 4 then "低风险"
    else if v <=? 9 then "中风险"
    else if v <=? 15 then "高风险"
    else if v <=? 999 then "极高风险"
    else "未知风险".
Proof. reflexivity. Qed.

(** Up to the last threshold the console's fixed bands are those of the
    default levels. *)
Lemma console_level_agrees (v : Z) :
  v <= 999 ->
  Console.determine_risk_level v
  = first_level (sorted_by threshold (levels DEFAULT_RISK_MODEL)) v.
Proof.
  intro Hv.
  rewrite default_bands; unfold Console.determine_risk_level.
  destruct (Z.leb_spec v 4), (Z.leb_spec v 9), (Z.leb_spec v 15), (Z.leb_spec v 999),
    (Z.leb_spec 5 v), (Z.leb_spec 10 v); simpl; try reflexivity; lia.
Qed.

(** C1.  For every risk value and every levels collection,
    [determine_risk_level] scans the levels in ascending order of threshold
    (a stable rearrangement of the model's list) and returns the name of the
    first level whose threshold is at least the risk value, thresholds being
    inclusive upper bounds; when no threshold qualifies it returns the
    unknown-risk name.  In the default model the value 4 gets the low band,
    and up to its last threshold the console program's
    [determine_risk_level], with its fixed bands, gives the same names. *)
Theorem determine_risk_level_first_threshold (g : risk_model) (v : Z) :
  Permutation (sorted_by threshold (levels g)) (levels g)
  /\ StronglySorted (fun a b => threshold a <= threshold b)
       (sorted_by threshold (levels g))
  /\ (forall t,
        filter (fun l => threshold l =? t) (sorted_by threshold (levels g))
        = filter (fun l => threshold l =? t) (levels g))
  /\ ((exists before l after,
          sorted_by threshold (levels g) = before ++ l :: after
          /\ Forall (fun x => threshold x < v) before
          /\ v <= threshold l
          /\ determine_risk_level v g = (Return (name l), g))
      \/ (Forall (fun x => threshold x < v) (levels g)
          /\ determine_risk_level v g = (Return "未知风险", g)))
  /\ determine_risk_level 4 DEFAULT_RISK_MODEL = (Return "低风险", DEFAULT_RISK_MODEL)
  /\ (forall x,
        x <= 999 ->
        determine_risk_level x DEFAULT_RISK_MODEL
        = (Return (Console.determine_risk_level x), DEFAULT_RISK_MODEL)).
Proof.
  split; [apply sorted_by_perm |].
  split; [apply (sorted_by_sorted threshold) |].
  split; [intro t; apply sorted_by_stable |].
  split;
    [| split; [reflexivity |];
       intros x Hx; rewrite determine_risk_level_eq;
       now rewrite (console_level_agrees x Hx)].
  rewrite determine_risk_level_eq.
  destruct (first_level_scan (sorted_by threshold (levels g)) v)
    as [(before & l & after & Hs & Hb & Hl & Hn) | [Hall Hn]].
  - left; exists before, l, after; repeat split; auto; now rewrite Hn.
  - right; split; [| now rewrite Hn].
    apply Forall_forall; intros x Hx.
    rewrite Forall_forall in Hall; apply Hall.
    now apply sorted_by_In.
Qed.

(** *** Dicts *)

Lemma dict_get_In (d : dict) (k : string) (v : Z) :
  dict_get d k = Some v -> In (k, v) d.
Proof.
  induction d as [| [k' v'] d IH]; simpl; [discriminate |].
  destruct (String.eqb k' k) eqn:E.
  - apply String.eqb_eq in E; subst k'.
    intros [= ->]; now left.
  - intro Hg; right; now apply IH.
Qed.

Lemma dict_get_None (d : dict) (k : string) :
  dict_get d k = None <-> ~ In k (dict_keys d).
Proof.
  induction d as [| [k' v'] d IH]; simpl.
  - split; auto.
  - destruct (String.eqb k' k) eqn:E.
    + apply String.eqb_eq in E; subst k'.
      split; [discriminate | intros Hn; exfalso; apply Hn; now left].
    + apply String.eqb_neq in E.
      rewrite IH; split.
      * intros Hn [Hk | Hk]; [now apply E | now apply Hn].
      * intros Hn Hk; apply Hn; now right.
Qed.

Lemma dict_get_key (d : dict) (k : string) :
  In k (dict_keys d) -> exists v, dict_get d k = Some v.
Proof.
  intro Hk.
  destruct (dict_get d k) as [v |] eqn:E; [now exists v |].
  now apply dict_get_None in E.
Qed.

Lemma dict_getitem_Some (d : dict) (k : string) (v : Z) :
  dict_get d k = Some v -> dict_getitem d k = Return v.
Proof. unfold dict_getitem; now intros ->. Qed.

Lemma dict_contains_Some (d : dict) (k : string) (v : Z) :
  dict_get d k = Some v -> dict_contains d k = true.
Proof. unfold dict_contains; now intros ->. Qed.

Lemma dict_contains_None (d : dict) (k : string) :
  dict_get d k = None -> dict_contains d k = false.
Proof. unfold dict_contains; now intros ->. Qed.

Lemma rank_Some (d : dict) (k : string) (v : Z) :
  dict_get d k = Some v -> rank d k = v.
Proof. unfold rank; now intros ->. Qed.

(** *** The assessment *)

Lemma assess_risk_ok (g : risk_model) (request : RiskAssessmentRequest) (rp rs : Z) :
  dict_get (probability g) (request_probability request) = Some rp ->
  dict_get (severity g) (request_severity request) = Some rs ->
  assess_risk request g
  = (Return {| risk_value := rp * rs;
               risk_level := first_level (sorted_by threshold (levels g)) (rp * rs) |},
     g).
Proof.
  intros Hp Hs.
  unfold assess_risk, bind, current_risk_model, lift, ret.
  rewrite (dict_contains_Some _ _ _ Hp), (dict_contains_Some _ _ _ Hs); simpl.
  rewrite (dict_getitem_Some _ _ _ Hp), (dict_getitem_Some _ _ _ Hs).
  reflexivity.
Qed.

Lemma assess_risk_unknown (g : risk_model) (request : RiskAssessmentRequest) :
  dict_get (probability g) (request_probability request) = None
  \/ dict_get (severity g) (request_severity request) = None ->
  assess_risk request g
  = (Raise (HTTPException 400 "提供的概率或后果等级在当前配置中不存在。"), g).
Proof.
  intros Hn.
  unfold assess_risk, bind, current_risk_model, raise.
  destruct Hn as [Hn | Hn]; rewrite (dict_contains_None _ _ Hn); simpl.
  - reflexivity.
  - now rewrite orb_true_r.
Qed.

(** C2.  [calculate_risk_value], in both programs, is the product of its two
    arguments for all integers, and the assessment of a pair of names of the
    default model carries the product of their ranks. *)
Theorem risk_value_is_product :
  (forall p s : Z,
      Api.calculate_risk_value p s = p * s
      /\ Console.calculate_risk_value p s = p * s)
  /\ (forall (pn sn : string) (rp rs : Z),
        dict_get (probability DEFAULT_RISK_MODEL) pn = Some rp ->
        dict_get (severity DEFAULT_RISK_MODEL) sn = Some rs ->
        exists lvl,
          assess_risk {| request_probability := pn; request_severity := sn |}
            DEFAULT_RISK_MODEL
          = (Return {| risk_value := rp * rs; risk_level := lvl |}, DEFAULT_RISK_MODEL)).
Proof.
  split.
  - intros p s; split; reflexivity.
  - intros pn sn rp rs Hp Hs.
    eexists.
    apply (assess_risk_ok DEFAULT_RISK_MODEL
             {| request_probability := pn; request_severity := sn |} rp rs Hp Hs).
Qed.

Lemma risk_value_is_product_witness :
  exists lvl,
    assess_risk {| request_probability := "经常发生"; request_severity := "灾难" |}
      DEFAULT_RISK_MODEL
    = (Return {| risk_value := 5 * 4; risk_level := lvl |}, DEFAULT_RISK_MODEL).
Proof.
  apply (proj2 risk_value_is_product "经常发生" "灾难" 5 4); reflexivity.
Defined.

(** C3.  [assess_risk] answers 400 when the probability name or the severity
    name is not a key of the current model's map, whatever else the model
    holds and leaving it as it was; when both are keys it returns the product
    of their ranks and the level [determine_risk_level] gives that product. *)
Theorem assess_risk_checks_names_first (g : risk_model) (request : RiskAssessmentRequest) :
  (~ In (request_probability request) (dict_keys (probability g))
   \/ ~ In (request_severity request) (dict_keys (severity g)) ->
   assess_risk request g
   = (Raise (HTTPException 400 "提供的概率或后果等级在当前配置中不存在。"), g))
  /\ (In (request_probability request) (dict_keys (probability g)) ->
      In (request_severity request) (dict_keys (severity g)) ->
      exists rp rs lvl,
        dict_get (probability g) (request_probability request) = Some rp
        /\ dict_get (severity g) (request_severity request) = Some rs
        /\ determine_risk_level (calculate_risk_value rp rs) g = (Return lvl, g)
        /\ assess_risk request g
           = (Return {| risk_value := rp * rs; risk_level := lvl |}, g)).
Proof.
  split.
  - intros Hn; apply assess_risk_unknown.
    destruct Hn as [Hn | Hn]; [left | right]; now apply dict_get_None.
  - intros Hp Hs.
    destruct (dict_get_key _ _ Hp) as [rp Hrp].
    destruct (dict_get_key _ _ Hs) as [rs Hrs].
    exists rp, rs, (first_level (sorted_by threshold (levels g)) (rp * rs)).
    repeat split; auto.
    now apply assess_risk_ok.
Qed.

Lemma assess_risk_checks_names_first_witness :
  assess_risk {| request_probability := "偶尔发生"; request_severity := "没有" |}
    DEFAULT_RISK_MODEL
  = (Raise (HTTPException 400 "提供的概率或后果等级在当前配置中不存在。"),
     DEFAULT_RISK_MODEL).
Proof.
  apply (proj1 (assess_risk_checks_names_first DEFAULT_RISK_MODEL
                  {| request_probability := "偶尔发生"; request_severity := "没有" |})).
  right; simpl.
  intros H; repeat (destruct H as [H | H]; [discriminate H |]); exact H.
Defined.

(** *** The default model *)

(** C8.  The model the process starts with is the default one: probability
    ranks 1 to 5 and severity ranks 1 to 4 under the names below (the console
    program has the same two tables), and four levels, ascending, whose
    thresholds 4, 9, 15 and 999 are the inclusive upper ends of the low,
    medium, high and extreme bands. *)
Theorem default_model_exact :
  current_risk_model_at_start = DEFAULT_RISK_MODEL
  /\ probability DEFAULT_RISK_MODEL
     = [("极少发生", 1); ("很少发生", 2); ("偶尔发生", 3); ("有时发生", 4); ("经常发生", 5)]
  /\ severity DEFAULT_RISK_MODEL = [("轻微", 1); ("轻度", 2); ("严重", 3); ("灾难", 4)]
  /\ Console.probability = probability DEFAULT_RISK_MODEL
  /\ Console.severity = severity DEFAULT_RISK_MODEL
  /\ map (fun l => (name l, threshold l)) (levels DEFAULT_RISK_MODEL)
     = [("低风险", 4); ("中风险", 9); ("高风险", 15); ("极高风险", 999)]
  /\ sorted_by threshold (levels DEFAULT_RISK_MODEL) = levels DEFAULT_RISK_MODEL
  /\ (forall v,
        (v <= 4 ->
         determine_risk_level v current_risk_model_at_start
         = (Return "低风险", current_risk_model_at_start))
        /\ (4 < v <= 9 ->
            determine_risk_level v current_risk_model_at_start
            = (Return "中风险", current_risk_model_at_start))
        /\ (9 < v <= 15 ->
            determine_risk_level v current_risk_model_at_start
            = (Return "高风险", current_risk_model_at_start))
        /\ (15 < v <= 999 ->
            determine_risk_level v current_risk_model_at_start
            = (Return "极高风险", current_risk_model_at_start))).
Proof.
  repeat (split; [reflexivity |]).
  intros v.
  rewrite determine_risk_level_eq.
  change current_risk_model_at_start with DEFAULT_RISK_MODEL.
  rewrite default_bands.
  destruct (Z.leb_spec v 4), (Z.leb_spec v 9), (Z.leb_spec v 15), (Z.leb_spec v 999);
    repeat split; intros; try reflexivity; lia.
Qed.

Lemma default_model_exact_witness :
  determine_risk_level 9 DEFAULT_RISK_MODEL = (Return "中风险", DEFAULT_RISK_MODEL).
Proof.
  pose proof (proj2 (proj2 (proj2 (proj2 (proj2 (proj2 (proj2
                default_model_exact)))))) 9) as (_ & Hmedium & _).
  apply Hmedium; lia.
Defined.

(** *** The console program against the API *)

Lemma default_rank_bounds (d : dict) (k : string) (v : Z) :
  d = probability DEFAULT_RISK_MODEL \/ d = severity DEFAULT_RISK_MODEL ->
  dict_get d k = Some v -> 1 <= v <= 5.
Proof.
  intros Hd Hg; apply dict_get_In in Hg.
  destruct Hd as [-> | ->]; simpl in Hg;
    repeat (destruct Hg as [Hg | Hg]; [injection Hg as _ <-; lia |]);
    contradiction.
Qed.

Lemma ask_accepts (prompt : string) (table : dict) (level : string)
  (rest out : list string) (v : Z) :
  dict_get table level = Some v ->
  Console.ask prompt table (level :: rest) out
  = (Return v, {| Console.stdin := rest; Console.stdout := out ++ [prompt] |}).
Proof.
  intro Hg; simpl.
  now rewrite (dict_contains_Some _ _ _ Hg), (dict_getitem_Some _ _ _ Hg).
Qed.

Lemma print_levels_stdin (table : dict) (t : Console.terminal) :
  Console.stdin (Console.print_levels table t) = Console.stdin t.
Proof.
  unfold Console.print_levels.
  revert t; induction (dict_keys table) as [| k ks IH]; intro t; simpl.
  - reflexivity.
  - now rewrite IH.
Qed.

Lemma main_on_valid_names (pn sn : string) (rest : list string) (rp rs : Z) :
  dict_get Console.probability pn = Some rp ->
  dict_get Console.severity sn = Some rs ->
  exists out,
    Console.main {| Console.stdin := pn :: sn :: rest; Console.stdout := [] |}
    = (Return tt,
       {| Console.stdin := rest;
          Console.stdout :=
            out ++ [ (Console.newline +++ "风险值：" +++ str_of_int (rp * rs))
                       +++ Console.newline;
                     ("风险等级：" +++ Console.determine_risk_level (rp * rs))
                       +++ Console.newline ] |}).
Proof.
  intros Hp Hs.
  unfold Console.main, Console.get_probability_level.
  rewrite print_levels_stdin.
  change (Console.stdin (Console.print "概率等级：" (Console.print "风险评估程序" ?t)))
    with (Console.stdin t).
  cbv beta iota zeta delta [Console.stdin].
  rewrite (ask_accepts _ _ _ _ _ _ Hp).
  unfold Console.get_severity_level.
  rewrite print_levels_stdin.
  cbv beta iota zeta delta [Console.stdin Console.print].
  rewrite (ask_accepts _ _ _ _ _ _ Hs).
  eexists.
  unfold Console.print, Console.calculate_risk_value.
  cbv beta iota zeta delta [Console.stdin Console.stdout].
  rewrite <- app_assoc.
  reflexivity.
Qed.

(** C10.  For the names of the default configuration the console program and
    the API over the default model agree: the tables give the same ranks, the
    assessment returns the console's risk value and risk level, and the
    console's [main], given the two names, prints that value and level. *)
Theorem console_agrees_with_api_on_default (pn sn : string) (rp rs : Z) :
  dict_get Console.probability pn = Some rp ->
  dict_get Console.severity sn = Some rs ->
  dict_get (probability DEFAULT_RISK_MODEL) pn = Some rp
  /\ dict_get (severity DEFAULT_RISK_MODEL) sn = Some rs
  /\ assess_risk {| request_probability := pn; request_severity := sn |}
       DEFAULT_RISK_MODEL
     = (Return
          {| risk_value := Console.calculate_risk_value rp rs;
             risk_level :=
               Console.determine_risk_level (Console.calculate_risk_value rp rs) |},
        DEFAULT_RISK_MODEL)
  /\ exists out,
       Console.main {| Console.stdin := [pn; sn]; Console.stdout := [] |}
       = (Return tt,
          {| Console.stdin := [];
             Console.stdout :=
               out ++ [ (Console.newline +++ "风险值：" +++ str_of_int (rp * rs))
                          +++ Console.newline;
                        ("风险等级：" +++ Console.determine_risk_level (rp * rs))
                          +++ Console.newline ] |}).
Proof.
  intros Hp Hs.
  split; [exact Hp |]. split; [exact Hs |].
  split; [| now apply main_on_valid_names].
  rewrite (assess_risk_ok DEFAULT_RISK_MODEL
             {| request_probability := pn; request_severity := sn |} rp rs Hp Hs).
  unfold Console.calculate_risk_value.
  rewrite console_level_agrees; [reflexivity |].
  assert (1 <= rp <= 5)
    by (apply (default_rank_bounds (probability DEFAULT_RISK_MODEL) pn);
        [now left | exact Hp]).
  assert (1 <= rs <= 5)
    by (apply (default_rank_bounds (severity DEFAULT_RISK_MODEL) sn);
        [now right | exact Hs]).
  nia.
Qed.

Lemma console_agrees_with_api_on_default_witness :
  assess_risk {| request_probability := "有时发生"; request_severity := "严重" |}
    DEFAULT_RISK_MODEL
  = (Return {| risk_value := 12; risk_level := "高风险" |}, DEFAULT_RISK_MODEL).
Proof.
  exact (proj1 (proj2 (proj2
           (console_agrees_with_api_on_default "有时发生" "严重" 4 3 eq_refl eq_refl)))).
Defined.

(** *** The visualization *)

Lemma for_each_map {A B : Type} (body : A -> M B) (f : A -> B) (l : list A)
  (g : risk_model) :
  (forall x, In x l -> body x g = (Return (f x), g)) ->
  for_each body l g = (Return (map f l), g).
Proof.
  induction l as [| x l IH]; intro Hbody; simpl.
  - reflexivity.
  - unfold bind.
    rewrite (Hbody x (or_introl eq_refl)).
    rewrite IH by (intros y Hy; apply Hbody; now right).
    reflexivity.
Qed.

Lemma sorted_keys_get (d : dict) (k : string) :
  In k (sorted_by (rank d) (dict_keys d)) ->
  exists v, dict_get d k = Some v /\ rank d k = v.
Proof.
  intro Hk; apply sorted_by_In in Hk.
  destruct (dict_get_key _ _ Hk) as [v Hv].
  exists v; split; [exact Hv | now apply rank_Some].
Qed.

Lemma get_matrix_visualization_eq (g : risk_model) :
  get_matrix_visualization g
  = (Return
       {| probability_axis := sorted_by (rank (probability g)) (dict_keys (probability g));
          severity_axis := sorted_by (rank (severity g)) (dict_keys (severity g));
          matrix_data :=
            map (fun p =>
                   map (MatrixSpec.expected_cell g p)
                     (sorted_by (rank (severity g)) (dict_keys (severity g))))
              (sorted_by (rank (probability g)) (dict_keys (probability g))) |},
     g).
Proof.
  unfold get_matrix_visualization, bind at 1, current_risk_model at 1.
  unfold bind at 1.
  rewrite for_each_map
    with (f := fun p =>
                 map (MatrixSpec.expected_cell g p)
                   (sorted_by (rank (severity g)) (dict_keys (severity g)))).
  - reflexivity.
  - intros p Hp.
    destruct (sorted_keys_get _ _ Hp) as (rp & Hrp & Hrank_p).
    apply for_each_map.
    intros s Hs.
    destruct (sorted_keys_get _ _ Hs) as (rs & Hrs & Hrank_s).
    unfold bind, lift, ret.
    rewrite (dict_getitem_Some _ _ _ Hrp), (dict_getitem_Some _ _ _ Hrs).
    rewrite determine_risk_level_eq.
    unfold MatrixSpec.expected_cell, calculate_risk_value.
    now rewrite Hrank_p, Hrank_s.
Qed.

Lemma StronglySorted_impl_In {A : Type} (R R' : A -> A -> Prop) (l : list A) :
  (forall a b, In a l -> In b l -> R a b -> R' a b) ->
  StronglySorted R l -> StronglySorted R' l.
Proof.
  intros Himp Hs; induction Hs as [| a l Hs IH Ha]; constructor.
  - apply IH; intros x y Hx Hy; apply Himp; now right.
  - rewrite Forall_forall in Ha |- *.
    intros b Hb; apply Himp; [now left | now right | now apply Ha].
Qed.

(** The names on an axis are keys of the map, in ascending order of the
    values the map gives them. *)
Lemma sorted_keys_ascending (d : dict) :
  StronglySorted
    (fun a b =>
       exists ra rb, dict_get d a = Some ra /\ dict_get d b = Some rb /\ ra <= rb)
    (sorted_by (rank d) (dict_keys d)).
Proof.
  apply (StronglySorted_impl_In (key_le (rank d))); [| apply sorted_by_sorted].
  intros a b Ha Hb Hab.
  destruct (sorted_keys_get d a Ha) as (ra & Hra & Hrank_a).
  destruct (sorted_keys_get d b Hb) as (rb & Hrb & Hrank_b).
  exists ra, rb; repeat split; auto.
  unfold key_le in Hab; now rewrite Hrank_a, Hrank_b in Hab.
Qed.

(** C9.  For every model [get_matrix_visualization] returns, leaving the
    model as it was: the two axes, each the names of its map rearranged so
    that the ranks the map gives them ascend; a matrix with one row for each
    probability name and, in each row, one cell for each severity name; and
    at row [i], column [j] the cell that carries the [i]-th probability name,
    the [j]-th severity name, the product of their two ranks and the level
    [determine_risk_level] gives that product.  The response is a function
    of the model alone. *)
Theorem visualization_matrix (g : risk_model) :
  exists viz,
    get_matrix_visualization g = (Return viz, g)
    /\ Permutation (probability_axis viz) (dict_keys (probability g))
    /\ StronglySorted
         (fun a b =>
            exists ra rb,
              dict_get (probability g) a = Some ra
              /\ dict_get (probability g) b = Some rb
              /\ ra <= rb)
         (probability_axis viz)
    /\ Permutation (severity_axis viz) (dict_keys (severity g))
    /\ StronglySorted
         (fun a b =>
            exists ra rb,
              dict_get (severity g) a = Some ra
              /\ dict_get (severity g) b = Some rb
              /\ ra <= rb)
         (severity_axis viz)
    /\ List.length (matrix_data viz) = List.length (dict_keys (probability g))
    /\ Forall (fun r => List.length r = List.length (dict_keys (severity g)))
         (matrix_data viz)
    /\ (forall (i j : nat) (p s : string),
          nth_error (probability_axis viz) i = Some p ->
          nth_error (severity_axis viz) j = Some s ->
          exists rp rs lvl r,
            dict_get (probability g) p = Some rp
            /\ dict_get (severity g) s = Some rs
            /\ determine_risk_level (rp * rs) g = (Return lvl, g)
            /\ nth_error (matrix_data viz) i = Some r
            /\ nth_error r j
               = Some {| cell_probability := p;
                         cell_severity := s;
                         cell_risk_value := rp * rs;
                         cell_risk_level := lvl |}).
Proof.
  eexists; split; [apply get_matrix_visualization_eq |]; simpl.
  split; [apply sorted_by_perm |].
  split; [apply sorted_keys_ascending |].
  split; [apply sorted_by_perm |].
  split; [apply sorted_keys_ascending |].
  split; [now rewrite length_map, sorted_by_length |].
  split.
  - apply Forall_forall; intros r Hr.
    apply in_map_iff in Hr; destruct Hr as (p & <- & _).
    now rewrite length_map, sorted_by_length.
  - intros i j p s Hi Hj.
    destruct (sorted_keys_get _ _ (nth_error_In _ _ Hi)) as (rp & Hrp & Hrank_p).
    destruct (sorted_keys_get _ _ (nth_error_In _ _ Hj)) as (rs & Hrs & Hrank_s).
    exists rp, rs, (first_level (sorted_by threshold (levels g)) (rp * rs)).
    eexists.
    split; [exact Hrp |]. split; [exact Hrs |].
    split; [apply determine_risk_level_eq |].
    split.
    + rewrite nth_error_map, Hi; reflexivity.
    + rewrite nth_error_map, Hj; simpl.
      unfold MatrixSpec.expected_cell.
      now rewrite Hrank_p, Hrank_s.
Qed.

Lemma visualization_matrix_witness :
  StronglySorted
    (fun a b =>
       exists ra rb,
         dict_get [("乙", 2); ("甲", 1)] a = Some ra
         /\ dict_get [("乙", 2); ("甲", 1)] b = Some rb
         /\ ra <= rb)
    ["甲"; "乙"]
  /\ List.length
       [[ {| cell_probability := "甲"; cell_severity := "X";
             cell_risk_value := 3; cell_risk_level := "low" |} ];
        [ {| cell_probability := "乙"; cell_severity := "X";
             cell_risk_value := 6; cell_risk_level := "low" |} ]]
     = 2%nat.
Proof.
  destruct (visualization_matrix
              {| probability := [("乙", 2); ("甲", 1)];
                 severity := [("X", 3)];
                 levels := [ {| name := "low"; threshold := 10 |} ] |})
    as (viz & Hviz & _ & Hsorted & _ & _ & Hrows & _).
  vm_compute in Hviz.
  injection Hviz as <-.
  split; [exact Hsorted | exact Hrows].
Defined.

(** *** Strings: [lower] and [strip] on padded words *)

Lemma append_assoc (a b c : string) : (a +++ b) +++ c = a +++ b +++ c.
Proof. induction a as [| x a IH]; simpl; [reflexivity | now rewrite IH]. Qed.

Lemma rev_append_app (s acc : string) :
  rev_append s acc = rev_append s EmptyString +++ acc.
Proof.
  revert acc; induction s as [| c s IH]; intro acc; simpl.
  - reflexivity.
  - rewrite IH, (IH (String c EmptyString)).
    rewrite append_assoc; reflexivity.
Qed.

Lemma append_empty_r (s : string) : s +++ EmptyString = s.
Proof. induction s as [| c s IH]; simpl; [reflexivity | now rewrite IH]. Qed.

Lemma rev_app (a b : string) : rev (a +++ b) = rev b +++ rev a.
Proof.
  unfold rev; induction a as [| c a IH]; simpl.
  - now rewrite append_empty_r.
  - rewrite rev_append_app, IH, (rev_append_app a (String c EmptyString)).
    now rewrite append_assoc.
Qed.

Lemma rev_involutive (s : string) : rev (rev s) = s.
Proof.
  induction s as [| c s IH]; [reflexivity |].
  change (String c s) with (String c EmptyString +++ s).
  rewrite rev_app, rev_app, IH; reflexivity.
Qed.

Lemma blank_app (a b : string) :
  LoaderSpec.blank (a +++ b) = LoaderSpec.blank a && LoaderSpec.blank b.
Proof.
  induction a as [| c a IH]; simpl; [reflexivity |].
  now rewrite IH, andb_assoc.
Qed.

Lemma blank_rev (s : string) : LoaderSpec.blank (rev s) = LoaderSpec.blank s.
Proof.
  induction s as [| c s IH]; [reflexivity |].
  change (String c s) with (String c EmptyString +++ s).
  rewrite rev_app, !blank_app, IH; simpl.
  now rewrite andb_true_r, andb_comm.
Qed.

Lemma space1_lower (c : ascii) : space1 (ascii_lower c) = space1 c.
Proof. destruct c as [[] [] [] [] [] [] [] []]; reflexivity. Qed.

Lemma lower_app (a b : string) : lower (a +++ b) = lower a +++ lower b.
Proof. induction a as [| c a IH]; simpl; [reflexivity | now rewrite IH]. Qed.

Lemma blank_lower (s : string) : LoaderSpec.blank (lower s) = LoaderSpec.blank s.
Proof.
  induction s as [| c s IH]; simpl; [reflexivity |].
  now rewrite space1_lower, IH.
Qed.

Lemma lstrip_with_blank sp2 sp3 (pre s : string) :
  LoaderSpec.blank pre = true ->
  lstrip_with sp2 sp3 (pre +++ s) = lstrip_with sp2 sp3 s.
Proof.
  induction pre as [| c pre IH]; intro Hb; [reflexivity |].
  simpl in Hb; apply andb_prop in Hb; destruct Hb as [Hc Hpre].
  change (String c pre +++ s) with (String c (pre +++ s)).
  change (lstrip_with sp2 sp3 (String c (pre +++ s)))
    with (if space1 c then lstrip_with sp2 sp3 (pre +++ s)
          else match pre +++ s with
               | EmptyString => String c (pre +++ s)
               | String b r2 =>
                   if sp2 c b then lstrip_with sp2 sp3 r2
                   else match r2 with
                        | EmptyString => String c (pre +++ s)
                        | String c' r3 =>
                            if sp3 c b c' then lstrip_with sp2 sp3 r3
                            else String c (pre +++ s)
                        end
               end).
  rewrite Hc; now apply IH.
Qed.

(** The three words the loader knows, padded with blanks, strip to
    themselves. *)
Lemma strip_padded_keyword (kw pre post : string) :
  In kw ["probability"; "severity"; "level"] ->
  LoaderSpec.blank pre = true ->
  LoaderSpec.blank post = true ->
  strip (pre +++ kw +++ post) = kw.
Proof.
  intros Hkw Hpre Hpost.
  unfold strip, lstrip.
  rewrite (lstrip_with_blank _ _ pre _ Hpre).
  assert (Hl : lstrip_with space2 space3 (kw +++ post) = kw +++ post)
    by (destruct Hkw as [<- | [<- | [<- | []]]]; reflexivity).
  rewrite Hl; unfold rstrip.
  rewrite rev_app, lstrip_with_blank by (now rewrite blank_rev).
  destruct Hkw as [<- | [<- | [<- | []]]]; reflexivity.
Qed.

(** *** Assignments to a dict *)

Lemma dict_get_setitem (d : dict) (k n : string) (v : Z) :
  dict_get (dict_setitem d k v) n
  = if String.eqb k n then Some v else dict_get d n.
Proof.
  induction d as [| [k' v'] d IH]; simpl.
  - reflexivity.
  - destruct (String.eqb k' k) eqn:Ek; simpl.
    + apply String.eqb_eq in Ek; subst k'.
      now destruct (String.eqb k n).
    + destruct (String.eqb k' n) eqn:En.
      * apply String.eqb_eq in En; subst k'.
        rewrite String.eqb_sym, Ek; reflexivity.
      * exact IH.
Qed.

Lemma dict_get_app (d1 d2 : dict) (n : string) :
  dict_get (d1 ++ d2) n
  = match dict_get d1 n with
    | Some v => Some v
    | None => dict_get d2 n
    end.
Proof.
  induction d1 as [| [k v] d1 IH]; simpl; [reflexivity |].
  now destruct (String.eqb k n).
Qed.

Lemma dict_get_update (d : dict) (entries : list (string * Z)) (n : string) :
  dict_get (LoaderSpec.dict_update d entries) n
  = match LoaderSpec.last_value entries n with
    | Some v => Some v
    | None => dict_get d n
    end.
Proof.
  unfold LoaderSpec.dict_update, LoaderSpec.last_value.
  revert d; induction entries as [| [k v] entries IH]; intro d; simpl.
  - reflexivity.
  - rewrite IH, dict_get_app, dict_get_setitem; simpl.
    destruct (dict_get (List.rev entries) n); [reflexivity |].
    now destruct (String.eqb k n).
Qed.

Lemma dict_keys_setitem (d : dict) (k : string) (v : Z) :
  dict_keys (dict_setitem d k v)
  = if dict_contains d k then dict_keys d else dict_keys d ++ [k].
Proof.
  unfold dict_contains.
  induction d as [| [k' v'] d IH]; simpl; [reflexivity |].
  destruct (String.eqb k' k) eqn:Ek; simpl; [reflexivity |].
  rewrite IH; now destruct (dict_get d k).
Qed.

Lemma dict_setitem_NoDup (d : dict) (k : string) (v : Z) :
  NoDup (dict_keys d) -> NoDup (dict_keys (dict_setitem d k v)).
Proof.
  intro Hd; rewrite dict_keys_setitem; unfold dict_contains.
  destruct (dict_get d k) eqn:E; [exact Hd |].
  apply dict_get_None in E.
  apply (Permutation_NoDup (Permutation_cons_append (dict_keys d) k)).
  now constructor.
Qed.

Lemma dict_update_NoDup (d : dict) (entries : list (string * Z)) :
  NoDup (dict_keys d) -> NoDup (dict_keys (LoaderSpec.dict_update d entries)).
Proof.
  unfold LoaderSpec.dict_update.
  revert d; induction entries as [| e entries IH]; intros d Hd; simpl.
  - exact Hd.
  - now apply IH, dict_setitem_NoDup.
Qed.

(** *** The loader *)

Section ConfigureFacts.
Context {cell : Type} `{PyValue cell}.

Lemma entries_of_cons (kind : string) (r : row cell) (rs : list (row cell)) :
  LoaderSpec.entries_of kind (r :: rs)
  = LoaderSpec.entries_of kind [r] ++ LoaderSpec.entries_of kind rs.
Proof. unfold LoaderSpec.entries_of; simpl; now rewrite app_nil_r. Qed.

Lemma load_row_convertible (m : risk_model) (r : row cell) (z : Z) :
  py_int (value_cell r) = inl z ->
  load_row m r
  = Return
      {| probability :=
           LoaderSpec.dict_update (probability m) (LoaderSpec.entries_of "probability" [r]);
         severity :=
           LoaderSpec.dict_update (severity m) (LoaderSpec.entries_of "severity" [r]);
         levels :=
           levels m ++ map LoaderSpec.level_of (LoaderSpec.entries_of "level" [r]) |}.
Proof.
  intro Hz.
  unfold load_row, int_of, LoaderSpec.entries_of; simpl; rewrite Hz.
  destruct m as [mp ms ml]; simpl.
  destruct (String.eqb (row_type r) "probability") eqn:Ep.
  { apply String.eqb_eq in Ep; rewrite Ep; simpl; now rewrite app_nil_r. }
  destruct (String.eqb (row_type r) "severity") eqn:Es.
  { apply String.eqb_eq in Es; rewrite Es; simpl; now rewrite app_nil_r. }
  destruct (String.eqb (row_type r) "level") eqn:El; simpl.
  - reflexivity.
  - now rewrite app_nil_r.
Qed.

Lemma load_rows_fold (rs : list (row cell)) (m : risk_model) :
  Forall LoaderSpec.convertible rs ->
  load_rows m rs
  = Return
      {| probability :=
           LoaderSpec.dict_update (probability m) (LoaderSpec.entries_of "probability" rs);
         severity :=
           LoaderSpec.dict_update (severity m) (LoaderSpec.entries_of "severity" rs);
         levels :=
           levels m ++ map LoaderSpec.level_of (LoaderSpec.entries_of "level" rs) |}.
Proof.
  revert m; induction rs as [| r rs IH]; intros m Hall.
  - destruct m; simpl; now rewrite app_nil_r.
  - inversion Hall as [| r' rs' [z Hz] Hrest]; subst.
    simpl load_rows.
    rewrite (load_row_convertible m r z Hz), (IH _ Hrest).
    cbn [probability severity levels].
    rewrite (entries_of_cons "probability" r rs), (entries_of_cons "severity" r rs),
      (entries_of_cons "level" r rs).
    unfold LoaderSpec.dict_update.
    now rewrite !fold_left_app, map_app, app_assoc.
Qed.

Lemma load_rows_unconvertible (rs : list (row cell)) :
  Exists LoaderSpec.unconvertible rs ->
  exists message r,
    In r rs
    /\ py_int (value_cell r) = inr message
    /\ forall m, load_rows m rs = Raise (Error message).
Proof.
  induction rs as [| r rs IH]; intro Hex; [inversion Hex |].
  destruct (py_int (value_cell r)) as [z | message] eqn:E.
  - assert (Hrest : Exists LoaderSpec.unconvertible rs).
    { inversion Hex as [r' rs' [message Hm] | r' rs' Hrest']; subst;
        [congruence | exact Hrest']. }
    destruct (IH Hrest) as (message & r' & Hin & Hr' & Hload).
    exists message, r'; split; [now right |]. split; [exact Hr' |].
    intro m; simpl.
    rewrite (load_row_convertible m r z E); apply Hload.
  - exists message, r; split; [now left |]. split; [exact E |].
    intro m; simpl.
    unfold load_row, int_of; now rewrite E.
Qed.

Lemma load_rows_raise (rs : list (row cell)) (m : risk_model) (e : exn) :
  load_rows m rs = Raise e -> is_HTTPException e = false.
Proof.
  revert m; induction rs as [| r rs IH]; intros m; simpl; [discriminate |].
  destruct (load_row m r) as [m' | e'] eqn:E.
  - apply IH.
  - intros [= <-].
    unfold load_row, int_of in E.
    destruct (py_int (value_cell r)).
    + repeat match type of E with
             | (if ?b then _ else _) = _ => destruct b
             end; discriminate.
    + now injection E as <-.
Qed.

Lemma missing_types_of_eq (m : risk_model) :
  missing_types_of m = LoaderSpec.empty_buckets m.
Proof. destruct m as [[| ? ?] [| ? ?] [| ? ?]]; reflexivity. Qed.

(** The endpoint, path by path. *)
Lemma update_risk_model_from_excel_eq (file : UploadFile cell) (g : risk_model) :
  update_risk_model_from_excel file g
  = if negb (has_excel_extension file)
    then (Raise (HTTPException 400 "文件格式错误，请上传一个标准的 .xlsx Excel 文件。"), g)
    else
      match read_excel file with
      | inr message =>
          (Raise (HTTPException 500 ("处理文件时发生未知错误: " +++ message)), g)
      | inl df =>
          if negb (has_columns df)
          then (Raise (HTTPException 400
                         ("Excel文件必须包含以下中文表头: " +++ join ", " required_columns)),
                g)
          else
            match load_rows empty_model (rows df) with
            | Raise e =>
                (Raise (HTTPException 500 ("处理文件时发生未知错误: " +++ str_of_exn e)), g)
            | Return new_model =>
                match LoaderSpec.empty_buckets new_model with
                | [] => (Return "风险模型配置已成功更新。", new_model)
                | missing =>
                    (Raise (HTTPException 400 (incomplete_message missing)), g)
                end
            end
      end.
Proof.
  unfold update_risk_model_from_excel.
  destruct (negb (has_excel_extension file)); [reflexivity |].
  unfold try_except, bind, lift, raise.
  destruct (read_excel file) as [df | message]; [| reflexivity].
  destruct (negb (has_columns df)); [reflexivity |].
  destruct (load_rows empty_model (rows df)) as [new_model | e] eqn:E.
  - rewrite missing_types_of_eq.
    destruct (LoaderSpec.empty_buckets new_model); reflexivity.
  - now rewrite (load_rows_raise _ _ _ E).
Qed.

Lemma empty_buckets_nil (m : risk_model) :
  LoaderSpec.empty_buckets m = []
  <-> probability m <> [] /\ severity m <> [] /\ levels m <> [].
Proof.
  destruct m as [[| ? ?] [| ? ?] [| ? ?]]; simpl; split;
    try discriminate; try tauto;
    try (intros _; repeat split; discriminate).
Qed.

End ConfigureFacts.

(* ================================================================== *)
(** ** The configuration endpoint *)

Section ConfigureTheorems.
Context {cell : Type} `{PyValue cell}.

(** C4.  Whenever [update_risk_model_from_excel] raises (a file name without
    an Excel extension, a workbook that cannot be read, missing headers, a
    row whose value cannot be converted, an incomplete configuration) the
    current model after the call is the model before it, and the exception
    is an [HTTPException] of status 400 or 500. *)
Theorem failed_configure_keeps_model (file : UploadFile cell) (g g' : risk_model)
  (e : exn) :
  update_risk_model_from_excel file g = (Raise e, g') ->
  g' = g
  /\ exists status detail,
       e = HTTPException status detail /\ (status = 400 \/ status = 500).
Proof.
  rewrite update_risk_model_from_excel_eq.
  destruct (negb (has_excel_extension file)).
  { intros [= <- <-]; eauto 6. }
  destruct (read_excel file) as [df | message].
  2: { intros [= <- <-]; eauto 6. }
  destruct (negb (has_columns df)).
  { intros [= <- <-]; eauto 6. }
  destruct (load_rows empty_model (rows df)) as [new_model | e'].
  2: { intros [= <- <-]; eauto 6. }
  destruct (LoaderSpec.empty_buckets new_model).
  - discriminate.
  - intros [= <- <-]; eauto 6.
Qed.

(** C6, as the code has it.  Once the rows are accumulated into
    [new_model], the endpoint answers 400 exactly when one of the three
    buckets is empty; the detail of that answer is the fixed sentence around
    the names of the empty buckets and of no other (probability, severity,
    levels, in this order, joined by a comma and a blank); when the three
    are non-empty the call installs [new_model] as the current model and
    returns the confirmation message. *)
Theorem incomplete_configuration_iff (file : UploadFile cell) (g : risk_model)
  (df : DataFrame cell) (new_model : risk_model) :
  has_excel_extension file = true ->
  read_excel file = inl df ->
  has_columns df = true ->
  load_rows empty_model (rows df) = Return new_model ->
  (probability new_model = [] \/ severity new_model = [] \/ levels new_model = [] ->
   update_risk_model_from_excel file g
   = (Raise
        (HTTPException 400
           ("配置不完整，您的Excel文件中缺少以下类型的数据行: "
            +++ String.concat ", "
                  ((match probability new_model with
                    | [] => ["probability"]
                    | _ :: _ => []
                    end)
                   ++ (match severity new_model with
                       | [] => ["severity"]
                       | _ :: _ => []
                       end)
                   ++ (match levels new_model with
                       | [] => ["levels"]
                       | _ :: _ => []
                       end))
            +++ "。请检查'类型'列是否存在拼写错误或缺少对应行。")),
      g))
  /\ (probability new_model <> [] ->
      severity new_model <> [] ->
      levels new_model <> [] ->
      update_risk_model_from_excel file g
      = (Return "风险模型配置已成功更新。", new_model))
  /\ ((exists e, fst (update_risk_model_from_excel file g) = Raise e)
      <-> probability new_model = [] \/ severity new_model = []
          \/ levels new_model = []).
Proof.
  intros Hext Hread Hcols Hload.
  assert (Hupd :
    update_risk_model_from_excel file g
    = match LoaderSpec.empty_buckets new_model with
      | [] => (Return "风险模型配置已成功更新。", new_model)
      | missing => (Raise (HTTPException 400 (incomplete_message missing)), g)
      end).
  { rewrite update_risk_model_from_excel_eq, Hext, Hread, Hcols, Hload.
    reflexivity. }
  rewrite Hupd; clear Hupd Hload.
  destruct new_model as [[| p ps] [| s ss] [| l ls]];
    cbn [probability severity levels];
    (split; [| split; [| split]]).
  all: try (intros _; reflexivity).
  all: try (intros Hp Hs Hl; first [reflexivity | now elim Hp | now elim Hs | now elim Hl]).
  all: try (intros [e He]; first [now left | now (right; left) | now (right; right)]).
  all: try (intros _; eexists; reflexivity).
  - intros [Hx | [Hx | Hx]]; discriminate Hx.
  - intros [Hx | [Hx | Hx]]; discriminate Hx.
Qed.

(** C7, as the code has it.  When a row has a value that [int()] rejects,
    the rows are not loaded ([load_rows] raises, whatever the model it
    started from) and the endpoint answers 500 with the text of that
    exception, the current model left as it was. *)
Theorem unconvertible_value_aborts_load (file : UploadFile cell) (g : risk_model)
  (df : DataFrame cell) :
  has_excel_extension file = true ->
  read_excel file = inl df ->
  has_columns df = true ->
  Exists LoaderSpec.unconvertible (rows df) ->
  exists message r,
    In r (rows df)
    /\ py_int (value_cell r) = inr message
    /\ (forall m, load_rows m (rows df) = Raise (Error message))
    /\ update_risk_model_from_excel file g
       = (Raise (HTTPException 500 ("处理文件时发生未知错误: " +++ message)), g).
Proof.
  intros Hext Hread Hcols Hex.
  destruct (load_rows_unconvertible (rows df) Hex) as (message & r & Hin & Hr & Hload).
  exists message, r; repeat split; auto.
  rewrite update_risk_model_from_excel_eq, Hext, Hread, Hcols, Hload.
  reflexivity.
Qed.

Lemma entries_of_recognized (kind : string) (rs : list (row cell)) :
  In kind ["probability"; "severity"; "level"] ->
  LoaderSpec.entries_of kind (filter LoaderSpec.recognized rs)
  = LoaderSpec.entries_of kind rs.
Proof.
  intro Hkind.
  induction rs as [| r rs IH]; [reflexivity |].
  simpl filter.
  destruct (LoaderSpec.recognized r) eqn:Er.
  - now rewrite (entries_of_cons kind r (filter _ rs)), (entries_of_cons kind r rs), IH.
  - rewrite (entries_of_cons kind r rs), IH.
    unfold LoaderSpec.recognized in Er.
    apply orb_false_elim in Er; destruct Er as [Er El].
    apply orb_false_elim in Er; destruct Er as [Ep Es].
    unfold LoaderSpec.entries_of; simpl.
    destruct Hkind as [<- | [<- | [<- | []]]]; rewrite ?Ep, ?Es, ?El; reflexivity.
Qed.

Lemma filter_convertible (f : row cell -> bool) (rs : list (row cell)) :
  Forall LoaderSpec.convertible rs -> Forall LoaderSpec.convertible (filter f rs).
Proof.
  intro Hall; apply Forall_forall; intros r Hr.
  apply filter_In in Hr; destruct Hr as [Hr _].
  rewrite Forall_forall in Hall; now apply Hall.
Qed.

(** C5.  When the value of every row converts with [int()] (a row whose
    value does not is the malformed row that aborts the load), the rows load
    into a model whose levels are the (name, value)
    pairs of the level rows, in order and with repetitions; whose probability
    and severity maps have no key twice and give each name the value of the
    last row of that type and name; and which is the model the rows of the
    three known types give alone.  The type of a row is read without regard
    to case and to blanks around it. *)
Theorem load_rows_buckets (rs : list (row cell)) :
  Forall LoaderSpec.convertible rs ->
  exists new_model,
    load_rows empty_model rs = Return new_model
    /\ levels new_model = map LoaderSpec.level_of (LoaderSpec.entries_of "level" rs)
    /\ NoDup (dict_keys (probability new_model))
    /\ (forall n,
          dict_get (probability new_model) n
          = LoaderSpec.last_value (LoaderSpec.entries_of "probability" rs) n)
    /\ NoDup (dict_keys (severity new_model))
    /\ (forall n,
          dict_get (severity new_model) n
          = LoaderSpec.last_value (LoaderSpec.entries_of "severity" rs) n)
    /\ load_rows empty_model (filter LoaderSpec.recognized rs) = Return new_model
    /\ (forall (r : row cell) (kw pre w post : string),
          In kw ["probability"; "severity"; "level"] ->
          py_str (type_cell r) = pre +++ w +++ post ->
          LoaderSpec.blank pre = true ->
          LoaderSpec.blank post = true ->
          lower w = kw ->
          row_type r = kw).
Proof.
  intro Hall.
  eexists; split; [apply (load_rows_fold rs empty_model Hall) |].
  cbn [probability severity levels empty_model].
  split; [reflexivity |].
  split; [apply dict_update_NoDup; constructor |].
  split.
  { intro n; rewrite dict_get_update.
    now destruct (LoaderSpec.last_value _ n). }
  split; [apply dict_update_NoDup; constructor |].
  split.
  { intro n; rewrite dict_get_update.
    now destruct (LoaderSpec.last_value _ n). }
  split.
  { rewrite (load_rows_fold _ empty_model (filter_convertible _ rs Hall)).
    rewrite !entries_of_recognized by (simpl; auto).
    reflexivity. }
  intros r kw pre w post Hkw Hstr Hpre Hpost Hlow.
  unfold row_type.
  rewrite Hstr, !lower_app, Hlow.
  apply strip_padded_keyword; [exact Hkw | |]; now rewrite blank_lower.
Qed.

End ConfigureTheorems.

(* ================================================================== *)
(** ** The endpoint on sample sheets *)

Import Sheet.

Lemma failed_configure_keeps_model_witness :
  snd (update_risk_model_from_excel
         (Sheet.workbook "risk.xlsx" Sheet.no_level_rows) DEFAULT_RISK_MODEL)
  = DEFAULT_RISK_MODEL.
Proof.
  exact (proj1 (failed_configure_keeps_model
                  (Sheet.workbook "risk.xlsx" Sheet.no_level_rows)
                  DEFAULT_RISK_MODEL
                  (snd (update_risk_model_from_excel
                          (Sheet.workbook "risk.xlsx" Sheet.no_level_rows)
                          DEFAULT_RISK_MODEL))
                  (HTTPException 400 (incomplete_message ["levels"]))
                  eq_refl)).
Defined.

Lemma incomplete_configuration_iff_witness :
  update_risk_model_from_excel
    (Sheet.workbook "risk.xlsx" Sheet.no_level_rows) DEFAULT_RISK_MODEL
  = (Raise
       (HTTPException 400
          "配置不完整，您的Excel文件中缺少以下类型的数据行: levels。请检查'类型'列是否存在拼写错误或缺少对应行。"),
     DEFAULT_RISK_MODEL).
Proof.
  refine (proj1 (incomplete_configuration_iff
                   (Sheet.workbook "risk.xlsx" Sheet.no_level_rows)
                   DEFAULT_RISK_MODEL
                   {| columns := required_columns; rows := Sheet.no_level_rows |}
                   {| probability := [("甲", 2); ("乙", 3)];
                      severity := [("X", 2)];
                      levels := [] |}
                   _ _ _ _) _);
    try (vm_compute; reflexivity).
  right; right; reflexivity.
Defined.

(** The endpoint does not hand the candidate model back: what it returns is
    the confirmation message, and the candidate is the current model once
    the call is over. *)
Lemma complete_sheet_is_installed :
  update_risk_model_from_excel
    (Sheet.workbook "risk.xlsx" Sheet.complete_rows) DEFAULT_RISK_MODEL
  = (Return "风险模型配置已成功更新。",
     {| probability := [("甲", 1)];
        severity := [("X", 2)];
        levels := [ {| name := "low"; threshold := 10 |} ] |})
  /\ snd (update_risk_model_from_excel
            (Sheet.workbook "risk.xlsx" Sheet.complete_rows) DEFAULT_RISK_MODEL)
     <> DEFAULT_RISK_MODEL.
Proof.
  split; [vm_compute; reflexivity |].
  vm_compute; discriminate.
Qed.

Lemma unconvertible_value_aborts_load_witness :
  exists message r,
    In r (Sheet.complete_rows ++ [Sheet.remark_row])
    /\ py_int (value_cell r) = inr message
    /\ (forall m,
          load_rows m (Sheet.complete_rows ++ [Sheet.remark_row])
          = Raise (Error message))
    /\ update_risk_model_from_excel
         (Sheet.workbook "risk.xlsx" (Sheet.complete_rows ++ [Sheet.remark_row]))
         DEFAULT_RISK_MODEL
       = (Raise (HTTPException 500 ("处理文件时发生未知错误: " +++ message)),
          DEFAULT_RISK_MODEL).
Proof.
  apply (unconvertible_value_aborts_load
           (Sheet.workbook "risk.xlsx" (Sheet.complete_rows ++ [Sheet.remark_row]))
           DEFAULT_RISK_MODEL
           {| columns := required_columns;
              rows := Sheet.complete_rows ++ [Sheet.remark_row] |});
    try reflexivity.
  apply Exists_exists; exists Sheet.remark_row; split.
  - simpl; auto.
  - exists "cannot convert float NaN to integer"; reflexivity.
Defined.

Lemma load_rows_buckets_witness :
  exists new_model,
    load_rows empty_model Sheet.no_level_rows = Return new_model
    /\ levels new_model = []
    /\ dict_get (probability new_model) "甲" = Some 2
    /\ dict_get (probability new_model) "乙" = Some 3
    /\ dict_get (severity new_model) "X" = Some 2.
Proof.
  assert (Hall : Forall LoaderSpec.convertible Sheet.no_level_rows)
    by (repeat constructor; eexists; reflexivity).
  destruct (load_rows_buckets Sheet.no_level_rows Hall)
    as (new_model & Hload & Hlevels & _ & Hp & _ & Hs & _).
  exists new_model.
  split; [exact Hload |].
  split; [rewrite Hlevels; reflexivity |].
  split; [rewrite Hp; reflexivity |].
  split; [rewrite Hp; reflexivity | rewrite Hs; reflexivity].
Defined.

(** The value of a row is converted before its type is looked at: the
    remark row, whose value cell is empty, is a malformed row like any other
    and makes the upload of an otherwise complete sheet fail. *)
Lemma unrecognized_row_fails_load :
  LoaderSpec.recognized Sheet.remark_row = false
  /\ update_risk_model_from_excel
       (Sheet.workbook "risk.xlsx" Sheet.complete_rows) DEFAULT_RISK_MODEL
     = (Return "风险模型配置已成功更新。",
        {| probability := [("甲", 1)];
           severity := [("X", 2)];
           levels := [ {| name := "low"; threshold := 10 |} ] |})
  /\ update_risk_model_from_excel
       (Sheet.workbook "risk.xlsx" (Sheet.complete_rows ++ [Sheet.remark_row]))
       DEFAULT_RISK_MODEL
     = (Raise (HTTPException 500
                 "处理文件时发生未知错误: cannot convert float NaN to integer"),
        DEFAULT_RISK_MODEL).
Proof. repeat split. Qed.

(** A row with a required field left empty does not fail the load: the
    severity row without a name is loaded under the name [nan], the row
    without a type is passed over, and the model is installed. *)
Lemma nameless_row_is_loaded :
  update_risk_model_from_excel
    (Sheet.workbook "risk.xlsx" Sheet.nameless_rows) DEFAULT_RISK_MODEL
  = (Return "风险模型配置已成功更新。",
     {| probability := [("甲", 1)];
        severity := [("nan", 2)];
        levels := [ {| name := "low"; threshold := 10 |} ] |}).
Proof. vm_compute; reflexivity. Qed.

(* ================================================================== *)
(** ** Further properties of the console program *)

Lemma ask_rejects (prompt : string) (table : dict) (level : string)
  (rest out : list string) :
  dict_get table level = None ->
  Console.ask prompt table (level :: rest) out
  = Console.ask prompt table rest
      (out ++ [prompt; "输入无效，请重新输入。" +++ Console.newline]).
Proof.
  intro Hn; simpl.
  rewrite (dict_contains_None _ _ Hn), <- app_assoc; reflexivity.
Qed.

Lemma ask_retries (prompt : string) (table : dict) (bad : list string)
  (good : string) (rest out : list string) (v : Z) :
  Forall (fun l => dict_get table l = None) bad ->
  dict_get table good = Some v ->
  Console.ask prompt table (bad ++ good :: rest) out
  = (Return v,
     {| Console.stdin := rest;
        Console.stdout :=
          out
          ++ flat_map (fun _ => [prompt; "输入无效，请重新输入。" +++ Console.newline]) bad
          ++ [prompt] |}).
Proof.
  intros Hbad Hgood; revert out.
  induction Hbad as [| l bad Hl Hbad IH]; intro out.
  - apply (ask_accepts prompt table good rest out v Hgood).
  - change ((l :: bad) ++ good :: rest) with (l :: bad ++ good :: rest).
    rewrite (ask_rejects _ _ _ _ _ Hl), IH.
    cbn [flat_map]; now rewrite <- !app_assoc.
Qed.

Lemma ask_outcome (prompt : string) (table : dict) (lines out : list string) :
  (exists bad good rest v,
      lines = bad ++ good :: rest
      /\ Forall (fun l => dict_get table l = None) bad
      /\ dict_get table good = Some v)
  \/ (Forall (fun l => dict_get table l = None) lines
      /\ exists out',
           Console.ask prompt table lines out
           = (Raise (Error "EOF when reading a line"),
              {| Console.stdin := []; Console.stdout := out' |})).
Proof.
  revert out; induction lines as [| l lines IH]; intro out.
  - right; split; [constructor | eexists; reflexivity].
  - destruct (dict_get table l) as [v |] eqn:E.
    + left; exists [], l, lines, v; repeat split; auto.
    + rewrite (ask_rejects _ _ _ _ _ E).
      destruct (IH (out ++ [prompt; "输入无效，请重新输入。" +++ Console.newline]))
        as [(bad & good & rest & v & -> & Hbad & Hgood) | [Hall Hraise]].
      * left; exists (l :: bad), good, rest, v; repeat split; auto.
      * right; split; [now constructor | exact Hraise].
Qed.

(** X1.  [get_probability_level] and [get_severity_level] pass over every
    typed line that is no level name, answering each with the prompt and the
    invalid-input message, and return the rank of the first line that is one,
    leaving the lines after it unread. *)
Theorem get_level_skips_invalid_lines (t : Console.terminal)
  (bad : list string) (good : string) (rest : list string) :
  Console.stdin t = bad ++ good :: rest ->
  (forall v,
      Forall (fun l => dict_get Console.probability l = None) bad ->
      dict_get Console.probability good = Some v ->
      Console.get_probability_level t
      = (Return v,
         {| Console.stdin := rest;
            Console.stdout :=
              Console.stdout
                (Console.print_levels Console.probability (Console.print "概率等级：" t))
              ++ flat_map
                   (fun _ => ["请输入概率等级："; "输入无效，请重新输入。" +++ Console.newline])
                   bad
              ++ ["请输入概率等级："] |}))
  /\ (forall v,
        Forall (fun l => dict_get Console.severity l = None) bad ->
        dict_get Console.severity good = Some v ->
        Console.get_severity_level t
        = (Return v,
           {| Console.stdin := rest;
              Console.stdout :=
                Console.stdout
                  (Console.print_levels Console.severity (Console.print "后果等级：" t))
                ++ flat_map
                     (fun _ => ["请输入后果等级："; "输入无效，请重新输入。" +++ Console.newline])
                     bad
                ++ ["请输入后果等级："] |})).
Proof.
  intro Hin; split; intros v Hbad Hgood.
  - unfold Console.get_probability_level.
    rewrite print_levels_stdin.
    change (Console.stdin (Console.print "概率等级：" t)) with (Console.stdin t).
    rewrite Hin.
    apply (ask_retries _ _ bad good rest _ v Hbad Hgood).
  - unfold Console.get_severity_level.
    rewrite print_levels_stdin.
    change (Console.stdin (Console.print "后果等级：" t)) with (Console.stdin t).
    rewrite Hin.
    apply (ask_retries _ _ bad good rest _ v Hbad Hgood).
Qed.

Lemma get_level_skips_invalid_lines_witness :
  fst (Console.get_probability_level
         {| Console.stdin := ["很高"; "x"; "偶尔发生"; "严重"]; Console.stdout := [] |})
  = Return 3.
Proof.
  pose proof (proj1 (get_level_skips_invalid_lines
                       {| Console.stdin := ["很高"; "x"; "偶尔发生"; "严重"];
                          Console.stdout := [] |}
                       ["很高"; "x"] "偶尔发生" ["严重"] eq_refl) 3) as Hw.
  rewrite Hw; [reflexivity | repeat constructor | reflexivity].
Defined.

(** X2.  [get_probability_level] returns a value exactly when one of the
    lines typed is a key of the probability table, and that value is the
    rank of such a line, between 1 and 5; otherwise it ends in [EOFError]
    with every line read. *)
Theorem get_probability_level_returns_table_rank (t : Console.terminal) :
  ((exists v t', Console.get_probability_level t = (Return v, t'))
   <-> Exists (fun l => In l (dict_keys Console.probability)) (Console.stdin t))
  /\ (forall v t',
        Console.get_probability_level t = (Return v, t') ->
        1 <= v <= 5
        /\ exists level,
             In level (Console.stdin t)
             /\ dict_get Console.probability level = Some v)
  /\ ((forall v t', Console.get_probability_level t <> (Return v, t')) ->
      exists out,
        Console.get_probability_level t
        = (Raise (Error "EOF when reading a line"),
           {| Console.stdin := []; Console.stdout := out |})).
Proof.
  unfold Console.get_probability_level.
  rewrite print_levels_stdin.
  change (Console.stdin (Console.print "概率等级：" t)) with (Console.stdin t).
  set (out0 := Console.stdout
                 (Console.print_levels Console.probability
                    (Console.print "概率等级：" t))).
  cbv zeta.
  destruct (ask_outcome "请输入概率等级：" Console.probability (Console.stdin t) out0)
    as [(bad & good & rest & v & Hin & Hbad & Hgood) | [Hall [out' Hraise]]].
  - rewrite Hin, (ask_retries _ _ bad good rest out0 v Hbad Hgood).
    split; [split |]; [| | split].
    + intros _; apply Exists_app; right; left.
      destruct (in_dec string_dec good (dict_keys Console.probability)) as [Hk | Hk];
        [exact Hk |].
      apply dict_get_None in Hk; congruence.
    + intros _; eauto.
    + intros v' t' [= <- <-]; split.
      * apply (default_rank_bounds Console.probability good v); [now left | exact Hgood].
      * exists good; split; [apply in_or_app; right; now left | exact Hgood].
    + intro Hno; exfalso; eapply Hno; reflexivity.
  - rewrite Hraise.
    split; [split |]; [| | split].
    + intros (v & t' & Heq); discriminate.
    + intro Hex; apply Exists_exists in Hex; destruct Hex as (l & Hl & Hk).
      rewrite Forall_forall in Hall.
      apply Hall, dict_get_None in Hl; contradiction.
    + intros v t' Heq; discriminate.
    + intros _; eauto.
Qed.

(** X3.  [main] re-prompts until a probability name and then a severity name
    are typed; it then ends normally, the lines after the severity name left
    unread, and the last two lines it prints are the product of the two
    ranks and the console's level of that product. *)
Theorem main_reprompts_until_valid (bad1 bad2 rest : list string)
  (pn sn : string) (rp rs : Z) :
  Forall (fun l => dict_get Console.probability l = None) bad1 ->
  dict_get Console.probability pn = Some rp ->
  Forall (fun l => dict_get Console.severity l = None) bad2 ->
  dict_get Console.severity sn = Some rs ->
  exists out,
    Console.main
      {| Console.stdin := bad1 ++ pn :: bad2 ++ sn :: rest; Console.stdout := [] |}
    = (Return tt,
       {| Console.stdin := rest;
          Console.stdout :=
            out ++ [ (Console.newline +++ "风险值：" +++ str_of_int (rp * rs))
                       +++ Console.newline;
                     ("风险等级：" +++ Console.determine_risk_level (rp * rs))
                       +++ Console.newline ] |}).
Proof.
  intros Hbad1 Hp Hbad2 Hs.
  unfold Console.main, Console.get_probability_level.
  rewrite print_levels_stdin.
  change (Console.stdin (Console.print "概率等级：" (Console.print "风险评估程序" ?t)))
    with (Console.stdin t).
  cbv beta iota zeta delta [Console.stdin].
  rewrite (ask_retries _ _ bad1 pn _ _ rp Hbad1 Hp).
  unfold Console.get_severity_level.
  rewrite print_levels_stdin.
  cbv beta iota zeta delta [Console.stdin Console.print].
  rewrite (ask_retries _ _ bad2 sn _ _ rs Hbad2 Hs).
  eexists.
  unfold Console.print, Console.calculate_risk_value.
  cbv beta iota zeta delta [Console.stdin Console.stdout].
  rewrite <- app_assoc.
  reflexivity.
Qed.

Lemma main_reprompts_until_valid_witness :
  exists out,
    Console.main
      {| Console.stdin := ["?"; "经常发生"; "重"; "大"; "灾难"; "again"];
         Console.stdout := [] |}
    = (Return tt,
       {| Console.stdin := ["again"];
          Console.stdout :=
            out ++ [ (Console.newline +++ "风险值：" +++ str_of_int (5 * 4))
                       +++ Console.newline;
                     ("风险等级：" +++ Console.determine_risk_level (5 * 4))
                       +++ Console.newline ] |}).
Proof.
  apply (main_reprompts_until_valid ["?"] ["重"; "大"] ["again"] "经常发生" "灾难" 5 4);
    try reflexivity; repeat constructor.
Defined.

(** X4.  On the default model the API's [determine_risk_level] and the
    console's agree exactly on the values up to 999: above it the console
    still answers with the extreme band, the API with the unknown-risk
    name. *)
Theorem console_level_matches_default_iff (x : Z) :
  (determine_risk_level x DEFAULT_RISK_MODEL
   = (Return (Console.determine_risk_level x), DEFAULT_RISK_MODEL)
   <-> x <= 999)
  /\ (999 < x ->
      Console.determine_risk_level x = "极高风险"
      /\ determine_risk_level x DEFAULT_RISK_MODEL
         = (Return "未知风险", DEFAULT_RISK_MODEL)).
Proof.
  assert (Hhigh : 999 < x ->
            Console.determine_risk_level x = "极高风险"
            /\ first_level (sorted_by threshold (levels DEFAULT_RISK_MODEL)) x
               = "未知风险").
  { intro Hx; rewrite default_bands; unfold Console.determine_risk_level.
    destruct (Z.leb_spec x 4), (Z.leb_spec x 9), (Z.leb_spec x 15),
      (Z.leb_spec x 999), (Z.leb_spec 5 x), (Z.leb_spec 10 x); simpl;
      try lia; now split. }
  rewrite determine_risk_level_eq.
  split; [split |].
  - intro Heq.
    destruct (Z.leb_spec x 999) as [Hle | Hgt]; [exact Hle |].
    destruct (Hhigh Hgt) as [Hc Ha].
    rewrite Hc, Ha in Heq; discriminate Heq.
  - intro Hle; now rewrite (console_level_agrees x Hle).
  - intro Hgt; destruct (Hhigh Hgt) as [Hc Ha]; now rewrite Ha.
Qed.

Lemma console_level_matches_default_iff_witness :
  Console.determine_risk_level 1000 = "极高风险"
  /\ determine_risk_level 1000 DEFAULT_RISK_MODEL
     = (Return "未知风险", DEFAULT_RISK_MODEL).
Proof.
  apply (proj2 (console_level_matches_default_iff 1000)); lia.
Defined.

(* ================================================================== *)
(** ** Further properties of the risk level and of the read-only endpoints *)

Section SortedUnique.
Context {A : Type} (key : A -> Z).

Lemma sorted_perm_unique (l1 l2 : list A) :
  StronglySorted (key_le key) l1 ->
  StronglySorted (key_le key) l2 ->
  Permutation l1 l2 ->
  NoDup (map key l1) ->
  l1 = l2.
Proof.
  revert l2; induction l1 as [| a l1 IH]; intros l2 Hs1 Hs2 Hp Hnd.
  - now apply Permutation_nil in Hp.
  - destruct l2 as [| b l2];
      [apply Permutation_sym, Permutation_nil in Hp; discriminate |].
    inversion Hs1 as [| ? ? Hs1' Ha]; subst.
    inversion Hs2 as [| ? ? Hs2' Hb]; subst.
    inversion Hnd as [| ? ? Hka Hnd']; subst.
    rewrite Forall_forall in Ha, Hb.
    assert (Hba : In b (a :: l1))
      by (apply (Permutation_in _ (Permutation_sym Hp)); now left).
    assert (Hab : In a (b :: l2)) by (apply (Permutation_in _ Hp); now left).
    assert (Heq : b = a).
    { destruct Hba as [-> | Hba]; [reflexivity |].
      destruct Hab as [Hab | Hab]; [exact Hab |].
      exfalso; apply Hka.
      assert (Hk : key b = key a)
        by (specialize (Ha b Hba); specialize (Hb a Hab); unfold key_le in *; lia).
      rewrite <- Hk; now apply in_map. }
    subst b; f_equal.
    apply IH; auto.
    now apply Permutation_cons_inv in Hp.
Qed.

Lemma sorted_by_perm_invariant (l1 l2 : list A) :
  Permutation l1 l2 ->
  NoDup (map key l1) ->
  sorted_by key l1 = sorted_by key l2.
Proof.
  intros Hp Hnd.
  apply sorted_perm_unique; try apply sorted_by_sorted.
  - apply perm_trans with l1; [apply sorted_by_perm |].
    apply perm_trans with l2; [exact Hp | apply Permutation_sym, sorted_by_perm].
  - apply (Permutation_NoDup (l := map key l1)); [| exact Hnd].
    apply Permutation_map, Permutation_sym, sorted_by_perm.
Qed.

End SortedUnique.

Lemma first_level_app (before : list level) (l : level) (after : list level) (v : Z) :
  Forall (fun x => threshold x < v) before ->
  v <= threshold l ->
  first_level (before ++ l :: after) v = name l.
Proof.
  intros Hb Hl; induction Hb as [| x before Hx Hb IH]; simpl.
  - now rewrite (proj2 (Z.leb_le v (threshold l)) Hl).
  - now rewrite (proj2 (Z.leb_gt v (threshold x)) Hx).
Qed.

(** X5.  When no two levels have the same threshold, the level of a risk
    value does not depend on the order in which the model lists its levels. *)
Theorem determine_risk_level_order_independent (g1 g2 : risk_model) (v : Z) :
  Permutation (levels g1) (levels g2) ->
  NoDup (map threshold (levels g1)) ->
  fst (determine_risk_level v g1) = fst (determine_risk_level v g2).
Proof.
  intros Hp Hnd.
  rewrite !determine_risk_level_eq; simpl.
  now rewrite (sorted_by_perm_invariant threshold _ _ Hp Hnd).
Qed.

Lemma determine_risk_level_order_independent_witness :
  fst (determine_risk_level 12 DEFAULT_RISK_MODEL)
  = fst (determine_risk_level 12
           {| probability := [];
              severity := [];
              levels := List.rev (levels DEFAULT_RISK_MODEL) |}).
Proof.
  apply determine_risk_level_order_independent.
  - apply Permutation_rev.
  - simpl; repeat constructor; simpl; intuition discriminate.
Defined.

(** X6.  Each level owns a band of risk values: if, in ascending order of
    threshold, every level before [l] has a threshold below the value and
    the value is at most the threshold of [l], the level returned is [l],
    so that two values in that band get the same level. *)
Theorem determine_risk_level_band (g : risk_model) (before : list level)
  (l : level) (after : list level) (v : Z) :
  sorted_by threshold (levels g) = before ++ l :: after ->
  Forall (fun x => threshold x < v) before ->
  v <= threshold l ->
  determine_risk_level v g = (Return (name l), g)
  /\ forall v', v <= v' <= threshold l ->
                determine_risk_level v' g = (Return (name l), g).
Proof.
  intros Hs Hb Hl.
  split; [| intros v' Hv'];
    rewrite determine_risk_level_eq, Hs, first_level_app; auto; try lia.
  eapply Forall_impl; [| exact Hb]; simpl; intros; lia.
Qed.

Lemma determine_risk_level_band_witness :
  determine_risk_level 5 DEFAULT_RISK_MODEL = (Return "中风险", DEFAULT_RISK_MODEL)
  /\ forall v', 5 <= v' <= 9 ->
                determine_risk_level v' DEFAULT_RISK_MODEL
                = (Return "中风险", DEFAULT_RISK_MODEL).
Proof.
  apply (determine_risk_level_band DEFAULT_RISK_MODEL
           [ {| name := "低风险"; threshold := 4 |} ]
           {| name := "中风险"; threshold := 9 |}
           [ {| name := "高风险"; threshold := 15 |};
             {| name := "极高风险"; threshold := 999 |} ]
           5).
  - reflexivity.
  - repeat constructor.
  - simpl; lia.
Defined.

(** X7.  The endpoints that read the model (the levels listing, the
    assessment, the visualization) and [determine_risk_level] leave the
    current model as it was, whether they return or raise; the levels
    listing returns the model's two maps. *)
Theorem read_endpoints_keep_model (g : risk_model) (v : Z)
  (request : RiskAssessmentRequest) :
  snd (determine_risk_level v g) = g
  /\ get_risk_levels g = (Return (probability g, severity g), g)
  /\ snd (assess_risk request g) = g
  /\ snd (get_matrix_visualization g) = g.
Proof.
  split; [reflexivity |]. split; [reflexivity |]. split.
  - destruct (dict_get (probability g) (request_probability request)) as [rp |] eqn:Ep.
    + destruct (dict_get (severity g) (request_severity request)) as [rs |] eqn:Es.
      * now rewrite (assess_risk_ok g request rp rs Ep Es).
      * now rewrite (assess_risk_unknown g request (or_intror Es)).
    + now rewrite (assess_risk_unknown g request (or_introl Ep)).
  - now rewrite get_matrix_visualization_eq.
Qed.

(** X8.  Every cell of the visualization is what the assessment endpoint
    answers for the cell's own two names on the same model. *)
Theorem visualization_cells_agree_with_assess (g g' : risk_model)
  (viz : MatrixVisualizationResponse) (r : list MatrixCell) (c : MatrixCell) :
  get_matrix_visualization g = (Return viz, g') ->
  In r (matrix_data viz) ->
  In c r ->
  assess_risk {| request_probability := cell_probability c;
                 request_severity := cell_severity c |} g
  = (Return {| risk_value := cell_risk_value c; risk_level := cell_risk_level c |}, g).
Proof.
  rewrite get_matrix_visualization_eq.
  intros [= <- <-]; simpl.
  intros Hr Hc.
  apply in_map_iff in Hr; destruct Hr as (p & <- & Hp).
  apply in_map_iff in Hc; destruct Hc as (s & <- & Hs).
  destruct (sorted_keys_get _ _ Hp) as (rp & Hrp & Hrank_p).
  destruct (sorted_keys_get _ _ Hs) as (rs & Hrs & Hrank_s).
  unfold MatrixSpec.expected_cell; simpl.
  rewrite Hrank_p, Hrank_s.
  apply (assess_risk_ok g
           {| request_probability := p; request_severity := s |} rp rs Hrp Hrs).
Qed.

Lemma visualization_cells_agree_with_assess_witness :
  assess_risk {| request_probability := "甲"; request_severity := "X" |}
    {| probability := [("甲", 2)];
       severity := [("X", 3)];
       levels := [ {| name := "low"; threshold := 10 |} ] |}
  = (Return {| risk_value := 6; risk_level := "low" |},
     {| probability := [("甲", 2)];
        severity := [("X", 3)];
        levels := [ {| name := "low"; threshold := 10 |} ] |}).
Proof.
  apply (visualization_cells_agree_with_assess
           {| probability := [("甲", 2)];
              severity := [("X", 3)];
              levels := [ {| name := "low"; threshold := 10 |} ] |}
           {| probability := [("甲", 2)];
              severity := [("X", 3)];
              levels := [ {| name := "low"; threshold := 10 |} ] |}
           {| probability_axis := ["甲"];
              severity_axis := ["X"];
              matrix_data :=
                [[ {| cell_probability := "甲"; cell_severity := "X";
                      cell_risk_value := 6; cell_risk_level := "low" |} ]] |}
           [ {| cell_probability := "甲"; cell_severity := "X";
                cell_risk_value := 6; cell_risk_level := "low" |} ]
           {| cell_probability := "甲"; cell_severity := "X";
              cell_risk_value := 6; cell_risk_level := "low" |}).
  - reflexivity.
  - now left.
  - now left.
Defined.

(** X9.  The cells of the visualization are the full cross product: a pair
    of names labels a cell exactly when the first is a probability name and
    the second a severity name of the model, and the number of cells is the
    product of the numbers of names. *)
Theorem visualization_is_cross_product (g : risk_model) :
  exists viz,
    get_matrix_visualization g = (Return viz, g)
    /\ (forall p s,
          In (p, s)
            (map (fun c => (cell_probability c, cell_severity c))
               (List.concat (matrix_data viz)))
          <-> In p (dict_keys (probability g)) /\ In s (dict_keys (severity g)))
    /\ List.length (List.concat (matrix_data viz))
       = (List.length (dict_keys (probability g))
          * List.length (dict_keys (severity g)))%nat.
Proof.
  eexists; split; [apply get_matrix_visualization_eq |]; simpl.
  set (pa := sorted_by (rank (probability g)) (dict_keys (probability g))).
  set (sa := sorted_by (rank (severity g)) (dict_keys (severity g))).
  split.
  - intros p s; split.
    + intro Hin.
      apply in_map_iff in Hin; destruct Hin as (c & [= <- <-] & Hc).
      apply in_concat in Hc; destruct Hc as (r & Hr & Hc).
      apply in_map_iff in Hr; destruct Hr as (p' & <- & Hp').
      apply in_map_iff in Hc; destruct Hc as (s' & <- & Hs').
      split; simpl; [apply (sorted_by_In (rank (probability g))), Hp'
                    | apply (sorted_by_In (rank (severity g))), Hs'].
    + intros [Hp Hs].
      apply in_map_iff; exists (MatrixSpec.expected_cell g p s); split; [reflexivity |].
      apply in_concat; exists (map (MatrixSpec.expected_cell g p) sa); split.
      * apply in_map_iff; exists p; split; [reflexivity |].
        now apply (sorted_by_In (rank (probability g))).
      * apply in_map; now apply (sorted_by_In (rank (severity g))).
  - rewrite <- (sorted_by_length (rank (probability g)) (dict_keys (probability g))).
    rewrite <- (sorted_by_length (rank (severity g)) (dict_keys (severity g))).
    fold pa sa.
    induction pa as [| p pa IH]; simpl; [reflexivity |].
    now rewrite length_app, length_map, IH.
Qed.

(** X10.  On each axis of the visualization the names of one rank stand in
    the order in which the model's map holds them. *)
Theorem visualization_axes_keep_insertion_order (g g' : risk_model)
  (viz : MatrixVisualizationResponse) (t : Z) :
  get_matrix_visualization g = (Return viz, g') ->
  filter (fun k => rank (probability g) k =? t) (probability_axis viz)
  = filter (fun k => rank (probability g) k =? t) (dict_keys (probability g))
  /\ filter (fun k => rank (severity g) k =? t) (severity_axis viz)
     = filter (fun k => rank (severity g) k =? t) (dict_keys (severity g)).
Proof.
  rewrite get_matrix_visualization_eq.
  intros [= <- <-]; simpl.
  split; apply sorted_by_stable.
Qed.

Lemma visualization_axes_keep_insertion_order_witness :
  filter (fun k => rank [("乙", 2); ("甲", 1); ("丙", 2)] k =? 2) ["甲"; "乙"; "丙"]
  = filter (fun k => rank [("乙", 2); ("甲", 1); ("丙", 2)] k =? 2) ["乙"; "甲"; "丙"].
Proof.
  exact (proj1 (visualization_axes_keep_insertion_order
                  {| probability := [("乙", 2); ("甲", 1); ("丙", 2)];
                     severity := [];
                     levels := [] |}
                  {| probability := [("乙", 2); ("甲", 1); ("丙", 2)];
                     severity := [];
                     levels := [] |}
                  {| probability_axis := ["甲"; "乙"; "丙"];
                     severity_axis := [];
                     matrix_data := [[]; []; []] |}
                  2 eq_refl)).
Defined.

(* ================================================================== *)
(** ** Further properties of the configuration endpoint *)

Lemma length_append (a b : string) :
  String.length (a +++ b) = (String.length a + String.length b)%nat.
Proof. induction a as [| c a IH]; simpl; [reflexivity | now rewrite IH]. Qed.

Lemma substring_0_all (s : string) : substring 0 (String.length s) s = s.
Proof. induction s as [| c s IH]; simpl; [reflexivity | now rewrite IH]. Qed.

Lemma substring_skip (pre s : string) (m : nat) :
  substring (String.length pre) m (pre +++ s) = substring 0 m s.
Proof. induction pre as [| c pre IH]; simpl; [reflexivity | exact IH]. Qed.

Lemma substring_split (s : string) (m : nat) :
  (m <= String.length s)%nat ->
  s = substring 0 m s +++ substring m (String.length s - m) s.
Proof.
  revert m; induction s as [| c s IH]; intros m Hm.
  - destruct m; [reflexivity | simpl in Hm; lia].
  - destruct m as [| m].
    + simpl; now rewrite substring_0_all.
    + simpl in Hm |- *.
      rewrite <- (IH m) by lia; reflexivity.
Qed.

Lemma endswith_iff (s suffix : string) :
  endswith s suffix = true <-> exists stem, s = stem +++ suffix.
Proof.
  unfold endswith; split.
  - destruct (Nat.leb_spec (String.length suffix) (String.length s)) as [Hle | Hgt];
      [| discriminate].
    intro Heq; apply String.eqb_eq in Heq.
    exists (substring 0 (String.length s - String.length suffix) s).
    pose proof (substring_split s (String.length s - String.length suffix)) as Hsp.
    replace (String.length s - (String.length s - String.length suffix))%nat
      with (String.length suffix) in Hsp by lia.
    rewrite Heq in Hsp; apply Hsp; lia.
  - intros [stem ->].
    rewrite length_append.
    rewrite (proj2 (Nat.leb_le _ _)) by lia.
    replace (String.length stem + String.length suffix - String.length suffix)%nat
      with (String.length stem) by lia.
    rewrite substring_skip, substring_0_all.
    apply String.eqb_refl.
Qed.

Lemma dict_setitem_not_nil (d : dict) (k : string) (v : Z) :
  dict_setitem d k v <> [].
Proof.
  destruct d as [| [k' v'] d]; simpl; [discriminate |].
  destruct (String.eqb k' k); discriminate.
Qed.

Lemma dict_update_nil (d : dict) (entries : list (string * Z)) :
  LoaderSpec.dict_update d entries = [] <-> d = [] /\ entries = [].
Proof.
  unfold LoaderSpec.dict_update.
  revert d; induction entries as [| e entries IH]; intro d; simpl.
  - split; [now intros -> | now intros [-> _]].
  - rewrite IH; split.
    + intros [Hd _]; now apply dict_setitem_not_nil in Hd.
    + intros [_ He]; discriminate He.
Qed.

Section ConfigureMore.
Context {cell : Type} `{PyValue cell}.

Lemma convertible_or_not (rs : list (row cell)) :
  Forall LoaderSpec.convertible rs \/ Exists LoaderSpec.unconvertible rs.
Proof.
  induction rs as [| r rs IH]; [left; constructor |].
  destruct (py_int (value_cell r)) as [z | message] eqn:E.
  - destruct IH as [IH | IH].
    + left; constructor; [now exists z | exact IH].
    + right; now apply Exists_cons_tl.
  - right; apply Exists_cons_hd; now exists message.
Qed.

Lemma convertible_not_unconvertible (rs : list (row cell)) :
  Forall LoaderSpec.convertible rs -> ~ Exists LoaderSpec.unconvertible rs.
Proof.
  intros Hall Hex.
  apply Exists_exists in Hex; destruct Hex as (r & Hr & [message Hm]).
  rewrite Forall_forall in Hall; destruct (Hall r Hr) as [z Hz]; congruence.
Qed.

Lemma has_columns_In (df : DataFrame cell) :
  has_columns df = true
  <-> In "类型" (columns df) /\ In "名称" (columns df) /\ In "数值" (columns df).
Proof.
  unfold has_columns, required_columns; cbn [forallb].
  rewrite !andb_true_iff, !existsb_exists.
  split.
  - intros ((c1 & H1 & E1) & (c2 & H2 & E2) & (c3 & H3 & E3) & _).
    apply String.eqb_eq in E1, E2, E3; subst; auto.
  - intros (H1 & H2 & H3).
    repeat split; [exists "类型" | exists "名称" | exists "数值"];
      (split; [assumption | apply String.eqb_refl]).
Qed.

Lemma load_rows_app (a b : list (row cell)) (m : risk_model) :
  load_rows m (a ++ b)
  = match load_rows m a with
    | Return m' => load_rows m' b
    | Raise e => Raise e
    end.
Proof.
  revert m; induction a as [| r a IH]; intro m; simpl; [reflexivity |].
  destruct (load_row m r); [apply IH | reflexivity].
Qed.

Lemma loaded_model_complete (rs : list (row cell)) :
  LoaderSpec.empty_buckets
    {| probability :=
         LoaderSpec.dict_update [] (LoaderSpec.entries_of "probability" rs);
       severity := LoaderSpec.dict_update [] (LoaderSpec.entries_of "severity" rs);
       levels := map LoaderSpec.level_of (LoaderSpec.entries_of "level" rs) |}
  = []
  <-> LoaderSpec.entries_of "probability" rs <> []
      /\ LoaderSpec.entries_of "severity" rs <> []
      /\ LoaderSpec.entries_of "level" rs <> [].
Proof.
  rewrite empty_buckets_nil; cbn [probability severity levels].
  assert (Hd : forall es, LoaderSpec.dict_update [] es <> [] <-> es <> []).
  { intro es; rewrite dict_update_nil; split.
    - intros Hn He; apply Hn; now split.
    - intros Hn [_ He]; now apply Hn. }
  rewrite !Hd.
  assert (Hm : map LoaderSpec.level_of (LoaderSpec.entries_of "level" rs) <> []
               <-> LoaderSpec.entries_of "level" rs <> []).
  { destruct (LoaderSpec.entries_of "level" rs); simpl; split; intro Hx;
      try discriminate; now auto. }
  now rewrite Hm.
Qed.

(** The endpoint on a readable workbook with the three headers, by what its
    rows are. *)
Lemma update_on_rows (file : UploadFile cell) (g : risk_model) (df : DataFrame cell) :
  has_excel_extension file = true ->
  read_excel file = inl df ->
  has_columns df = true ->
  update_risk_model_from_excel file g
  = match load_rows empty_model (rows df) with
    | Raise e =>
        (Raise (HTTPException 500 ("处理文件时发生未知错误: " +++ str_of_exn e)), g)
    | Return new_model =>
        match LoaderSpec.empty_buckets new_model with
        | [] => (Return "风险模型配置已成功更新。", new_model)
        | missing => (Raise (HTTPException 400 (incomplete_message missing)), g)
        end
    end.
Proof.
  intros Hext Hread Hcols.
  now rewrite update_risk_model_from_excel_eq, Hext, Hread, Hcols.
Qed.

(** X11.  The upload succeeds exactly when the file name ends in [.xlsx] or
    [.xls], the workbook is read, its header row has the three headers (in
    any place, among any others), the value of every row converts, and there
    is at least one row of each of the three types; the model installed is
    then built from the rows alone. *)
Theorem configure_succeeds_iff (file : UploadFile cell) (g g' : risk_model)
  (message : string) :
  update_risk_model_from_excel file g = (Return message, g')
  <-> has_excel_extension file = true
      /\ exists df,
           read_excel file = inl df
           /\ (In "类型" (columns df) /\ In "名称" (columns df) /\ In "数值" (columns df))
           /\ Forall LoaderSpec.convertible (rows df)
           /\ LoaderSpec.entries_of "probability" (rows df) <> []
           /\ LoaderSpec.entries_of "severity" (rows df) <> []
           /\ LoaderSpec.entries_of "level" (rows df) <> []
           /\ message = "风险模型配置已成功更新。"
           /\ g' = {| probability :=
                        LoaderSpec.dict_update []
                          (LoaderSpec.entries_of "probability" (rows df));
                      severity :=
                        LoaderSpec.dict_update []
                          (LoaderSpec.entries_of "severity" (rows df));
                      levels :=
                        map LoaderSpec.level_of
                          (LoaderSpec.entries_of "level" (rows df)) |}.
Proof.
  split.
  - rewrite update_risk_model_from_excel_eq.
    destruct (has_excel_extension file); [| discriminate]; simpl.
    destruct (read_excel file) as [df | msg]; [| discriminate].
    destruct (has_columns df) eqn:Hcols; [| discriminate]; simpl.
    destruct (convertible_or_not (rows df)) as [Hall | Hex].
    + rewrite (load_rows_fold (rows df) empty_model Hall).
      cbn [probability severity levels empty_model app].
      destruct (LoaderSpec.empty_buckets _) eqn:Hb; [| discriminate].
      intros [= <- <-].
      apply loaded_model_complete in Hb.
      split; [reflexivity |].
      exists df; split; [reflexivity |].
      split; [now apply has_columns_In |].
      split; [exact Hall |].
      destruct Hb as (Hp & Hs & Hl); auto 10.
    + destruct (load_rows_unconvertible (rows df) Hex) as (msg & r & _ & _ & Hload).
      rewrite Hload; discriminate.
  - intros (Hext & df & Hread & Hcols & Hall & Hp & Hs & Hl & -> & ->).
    apply has_columns_In in Hcols.
    rewrite (update_on_rows file g df Hext Hread Hcols).
    rewrite (load_rows_fold (rows df) empty_model Hall).
    cbn [probability severity levels empty_model app].
    now rewrite (proj2 (loaded_model_complete (rows df)) (conj Hp (conj Hs Hl))).
Qed.

(** X12.  The upload is answered with status 500 exactly when the file name
    has an Excel extension and either the workbook cannot be read or it has
    the three headers and a row whose value [int()] rejects; every other
    failure is a 400. *)
Theorem configure_answers_500_iff (file : UploadFile cell) (g : risk_model) :
  ((exists detail g',
       update_risk_model_from_excel file g = (Raise (HTTPException 500 detail), g'))
   <-> has_excel_extension file = true
       /\ ((exists message, read_excel file = inr message)
           \/ exists df,
                read_excel file = inl df
                /\ has_columns df = true
                /\ Exists LoaderSpec.unconvertible (rows df)))
  /\ (forall status detail g',
        update_risk_model_from_excel file g = (Raise (HTTPException status detail), g') ->
        status <> 500 -> status = 400).
Proof.
  split.
  - rewrite update_risk_model_from_excel_eq.
    destruct (has_excel_extension file); simpl.
    2: { split; [intros (d & g' & Heq); discriminate | intros [Hf _]; discriminate]. }
    destruct (read_excel file) as [df | msg].
    2: { split; [intros _; split; eauto | intros _; eauto]. }
    destruct (has_columns df) eqn:Hcols; simpl.
    2: { split; [intros (d & g' & Heq); discriminate |].
         intros [_ [[m Hm] | (df' & [= <-] & Hc & _)]]; [discriminate | congruence]. }
    destruct (convertible_or_not (rows df)) as [Hall | Hex].
    + rewrite (load_rows_fold (rows df) empty_model Hall).
      split.
      * destruct (LoaderSpec.empty_buckets _); intros (d & g' & Heq); discriminate.
      * intros [_ [[m Hm] | (df' & [= <-] & _ & Hex)]]; [discriminate |].
        now apply convertible_not_unconvertible in Hall.
    + destruct (load_rows_unconvertible (rows df) Hex) as (msg & r & _ & _ & Hload).
      rewrite Hload.
      split; [intros _; split; eauto | intros _; eauto].
  - intros status detail g' Hup Hne.
    rewrite update_risk_model_from_excel_eq in Hup.
    destruct (negb (has_excel_extension file)); [now injection Hup as <- _ _ |].
    destruct (read_excel file) as [df | msg];
      [| injection Hup as <- _ _; contradiction].
    destruct (negb (has_columns df)); [now injection Hup as <- _ _ |].
    destruct (load_rows empty_model (rows df)) as [new_model | e];
      [| injection Hup as <- _ _; contradiction].
    destruct (LoaderSpec.empty_buckets new_model); [discriminate |].
    now injection Hup as <- _ _.
Qed.

(** X13.  The upload does not read the model it replaces: its answer is the
    same whatever the current model is, and so is the model it installs when
    it succeeds (nothing of the previous model is merged in). *)
Theorem configure_ignores_previous_model (file : UploadFile cell) (g1 g2 : risk_model) :
  fst (update_risk_model_from_excel file g1) = fst (update_risk_model_from_excel file g2)
  /\ (forall message,
        fst (update_risk_model_from_excel file g1) = Return message ->
        snd (update_risk_model_from_excel file g1)
        = snd (update_risk_model_from_excel file g2)).
Proof.
  rewrite !update_risk_model_from_excel_eq.
  destruct (negb (has_excel_extension file)); [split; [reflexivity | discriminate] |].
  destruct (read_excel file) as [df | msg]; [| split; [reflexivity | discriminate]].
  destruct (negb (has_columns df)); [split; [reflexivity | discriminate] |].
  destruct (load_rows empty_model (rows df)) as [new_model | e];
    [| split; [reflexivity | discriminate]].
  destruct (LoaderSpec.empty_buckets new_model);
    split; try reflexivity; discriminate.
Qed.

End ConfigureMore.

Section ConfigureCompose.
Context {cell : Type} `{PyValue cell}.

Lemma update_success_model (file : UploadFile cell) (g g' : risk_model)
  (message : string) :
  update_risk_model_from_excel file g = (Return message, g') ->
  exists df,
    read_excel file = inl df
    /\ Forall LoaderSpec.convertible (rows df)
    /\ g' = {| probability :=
                 LoaderSpec.dict_update []
                   (LoaderSpec.entries_of "probability" (rows df));
               severity :=
                 LoaderSpec.dict_update []
                   (LoaderSpec.entries_of "severity" (rows df));
               levels :=
                 map LoaderSpec.level_of (LoaderSpec.entries_of "level" (rows df)) |}.
Proof.
  rewrite update_risk_model_from_excel_eq.
  destruct (negb (has_excel_extension file)); [discriminate |].
  destruct (read_excel file) as [df | msg]; [| discriminate].
  destruct (negb (has_columns df)); [discriminate |].
  destruct (convertible_or_not (rows df)) as [Hall | Hex].
  - rewrite (load_rows_fold (rows df) empty_model Hall).
    cbn [probability severity levels empty_model app].
    destruct (LoaderSpec.empty_buckets _); [| discriminate].
    intros [= _ <-]; exists df; auto.
  - destruct (load_rows_unconvertible (rows df) Hex) as (msg & r & _ & _ & Hload).
    rewrite Hload; discriminate.
Qed.

Lemma dict_get_update_nil (entries : list (string * Z)) (n : string) :
  dict_get (LoaderSpec.dict_update [] entries) n = LoaderSpec.last_value entries n.
Proof. rewrite dict_get_update; now destruct (LoaderSpec.last_value entries n). Qed.

(** X14.  After a successful upload the assessment works on the uploaded
    rows alone: for a probability name and a severity name it returns the
    product of the values of the last probability row and the last severity
    row of these names, with the level the uploaded level rows give that
    product; a name no row of its type carries is answered with 400. *)
Theorem configure_then_assess (file : UploadFile cell) (g g' : risk_model)
  (message pn sn : string) :
  update_risk_model_from_excel file g = (Return message, g') ->
  exists df,
    read_excel file = inl df
    /\ (forall vp vs,
          LoaderSpec.last_value (LoaderSpec.entries_of "probability" (rows df)) pn
          = Some vp ->
          LoaderSpec.last_value (LoaderSpec.entries_of "severity" (rows df)) sn
          = Some vs ->
          assess_risk {| request_probability := pn; request_severity := sn |} g'
          = (Return
               {| risk_value := vp * vs;
                  risk_level :=
                    first_level
                      (sorted_by threshold
                         (map LoaderSpec.level_of
                            (LoaderSpec.entries_of "level" (rows df))))
                      (vp * vs) |},
             g'))
    /\ (LoaderSpec.last_value (LoaderSpec.entries_of "probability" (rows df)) pn = None
        \/ LoaderSpec.last_value (LoaderSpec.entries_of "severity" (rows df)) sn = None ->
        assess_risk {| request_probability := pn; request_severity := sn |} g'
        = (Raise (HTTPException 400 "提供的概率或后果等级在当前配置中不存在。"), g')).
Proof.
  intro Hup.
  destruct (update_success_model file g g' message Hup) as (df & Hread & _ & ->).
  exists df; split; [exact Hread |]; split.
  - intros vp vs Hp Hs.
    match goal with
    | |- assess_risk ?req ?g0 = _ =>
        pose proof (assess_risk_ok g0 req vp vs) as Hok
    end.
    cbn [probability severity levels request_probability request_severity] in Hok.
    rewrite !dict_get_update_nil in Hok.
    exact (Hok Hp Hs).
  - intro Hnone.
    match goal with
    | |- assess_risk ?req ?g0 = _ =>
        pose proof (assess_risk_unknown g0 req) as Hno
    end.
    cbn [probability severity request_probability request_severity] in Hno.
    rewrite !dict_get_update_nil in Hno.
    exact (Hno Hnone).
Qed.

(** X15.  The first row whose value [int()] rejects decides the answer: the
    rows before it convert, the rows after it are not looked at, and the
    endpoint answers 500 with the text of that row's exception, the current
    model kept. *)
Theorem first_unconvertible_row_decides (file : UploadFile cell) (g : risk_model)
  (df : DataFrame cell) (good : list (row cell)) (r : row cell)
  (rest : list (row cell)) (message : string) :
  has_excel_extension file = true ->
  read_excel file = inl df ->
  has_columns df = true ->
  rows df = good ++ r :: rest ->
  Forall LoaderSpec.convertible good ->
  py_int (value_cell r) = inr message ->
  update_risk_model_from_excel file g
  = (Raise (HTTPException 500 ("处理文件时发生未知错误: " +++ message)), g).
Proof.
  intros Hext Hread Hcols Hrows Hgood Hr.
  rewrite (update_on_rows file g df Hext Hread Hcols), Hrows, load_rows_app.
  rewrite (load_rows_fold good empty_model Hgood); simpl load_rows.
  unfold load_row, int_of; now rewrite Hr.
Qed.

(** X16.  A readable sheet with the three headers in which no row has one
    of the three known types (an empty sheet among them) is answered with
    the 400 whose detail names the three buckets, probability, severity and
    levels, the current model kept. *)
Theorem sheet_without_known_rows_is_incomplete (file : UploadFile cell)
  (g : risk_model) (df : DataFrame cell) :
  has_excel_extension file = true ->
  read_excel file = inl df ->
  has_columns df = true ->
  Forall LoaderSpec.convertible (rows df) ->
  Forall (fun r => LoaderSpec.recognized r = false) (rows df) ->
  update_risk_model_from_excel file g
  = (Raise
       (HTTPException 400
          "配置不完整，您的Excel文件中缺少以下类型的数据行: probability, severity, levels。请检查'类型'列是否存在拼写错误或缺少对应行。"),
     g).
Proof.
  intros Hext Hread Hcols Hall Hnone.
  assert (Hfilter : filter LoaderSpec.recognized (rows df) = []).
  { induction Hnone as [| r rs Hr Hrs IH]; simpl; [reflexivity |].
    rewrite Hr; apply IH.
    now inversion Hall. }
  assert (Hentries : forall kind,
             In kind ["probability"; "severity"; "level"] ->
             LoaderSpec.entries_of kind (rows df) = []).
  { intros kind Hkind.
    now rewrite <- (entries_of_recognized kind (rows df) Hkind), Hfilter. }
  rewrite (update_on_rows file g df Hext Hread Hcols).
  rewrite (load_rows_fold (rows df) empty_model Hall).
  rewrite !Hentries by (simpl; auto).
  reflexivity.
Qed.

(** X17.  The extension check accepts exactly the file names that end in
    [.xlsx] or [.xls], in lower case; any other upload is answered with the
    400 on the file format before its contents are looked at, the current
    model kept. *)
Theorem excel_extension_checked_first (file : UploadFile cell) (g : risk_model) :
  (has_excel_extension file = true
   <-> exists stem,
         filename file = stem +++ ".xlsx" \/ filename file = stem +++ ".xls")
  /\ (has_excel_extension file = false ->
      update_risk_model_from_excel file g
      = (Raise (HTTPException 400 "文件格式错误，请上传一个标准的 .xlsx Excel 文件。"), g)).
Proof.
  split.
  - unfold has_excel_extension.
    rewrite orb_true_iff, !endswith_iff.
    split.
    + intros [[stem Hs] | [stem Hs]]; exists stem; auto.
    + intros [stem [Hs | Hs]]; [left | right]; now exists stem.
  - intro Hext.
    now rewrite update_risk_model_from_excel_eq, Hext.
Qed.

End ConfigureCompose.

Lemma configure_then_assess_witness :
  exists df,
    read_excel
      (Sheet.workbook "risk.xlsx"
         [ mk_row (Text "probability") (Text "甲") (Number 1);
           mk_row (Text "probability") (Text "乙") (Number 3);
           mk_row (Text "severity") (Text "X") (Number 2);
           mk_row (Text "level") (Text "high") (Number 999);
           mk_row (Text "level") (Text "low") (Number 10) ])
    = inl df
    /\ assess_risk {| request_probability := "乙"; request_severity := "X" |}
         {| probability := [("甲", 1); ("乙", 3)];
            severity := [("X", 2)];
            levels := [ {| name := "high"; threshold := 999 |};
                        {| name := "low"; threshold := 10 |} ] |}
       = (Return {| risk_value := 6; risk_level := "low" |},
          {| probability := [("甲", 1); ("乙", 3)];
             severity := [("X", 2)];
             levels := [ {| name := "high"; threshold := 999 |};
                         {| name := "low"; threshold := 10 |} ] |}).
Proof.
  assert (Hup :
    update_risk_model_from_excel
      (Sheet.workbook "risk.xlsx"
         [ mk_row (Text "probability") (Text "甲") (Number 1);
           mk_row (Text "probability") (Text "乙") (Number 3);
           mk_row (Text "severity") (Text "X") (Number 2);
           mk_row (Text "level") (Text "high") (Number 999);
           mk_row (Text "level") (Text "low") (Number 10) ])
      DEFAULT_RISK_MODEL
    = (Return "风险模型配置已成功更新。",
       {| probability := [("甲", 1); ("乙", 3)];
          severity := [("X", 2)];
          levels := [ {| name := "high"; threshold := 999 |};
                      {| name := "low"; threshold := 10 |} ] |}))
    by (vm_compute; reflexivity).
  destruct (configure_then_assess
              (Sheet.workbook "risk.xlsx"
                 [ mk_row (Text "probability") (Text "甲") (Number 1);
                   mk_row (Text "probability") (Text "乙") (Number 3);
                   mk_row (Text "severity") (Text "X") (Number 2);
                   mk_row (Text "level") (Text "high") (Number 999);
                   mk_row (Text "level") (Text "low") (Number 10) ])
              DEFAULT_RISK_MODEL
              {| probability := [("甲", 1); ("乙", 3)];
                 severity := [("X", 2)];
                 levels := [ {| name := "high"; threshold := 999 |};
                             {| name := "low"; threshold := 10 |} ] |}
              "风险模型配置已成功更新。" "乙" "X" Hup)
    as (df & Hread & Hok & _).
  exists df; split; [exact Hread |].
  injection Hread as <-.
  apply (Hok 3 2); reflexivity.
Defined.

Lemma first_unconvertible_row_decides_witness :
  update_risk_model_from_excel
    (Sheet.workbook "risk.xlsx"
       [ mk_row (Text "probability") (Text "甲") (Number 1);
         mk_row (Text "severity") (Text "X") (Text "two");
         mk_row (Text "level") (Text "low") Blank ])
    DEFAULT_RISK_MODEL
  = (Raise (HTTPException 500
              ("处理文件时发生未知错误: "
               +++ "invalid literal for int() with base 10: 'two'")),
     DEFAULT_RISK_MODEL).
Proof.
  apply (first_unconvertible_row_decides
           (Sheet.workbook "risk.xlsx"
              [ mk_row (Text "probability") (Text "甲") (Number 1);
                mk_row (Text "severity") (Text "X") (Text "two");
                mk_row (Text "level") (Text "low") Blank ])
           DEFAULT_RISK_MODEL
           {| columns := required_columns;
              rows := [ mk_row (Text "probability") (Text "甲") (Number 1);
                        mk_row (Text "severity") (Text "X") (Text "two");
                        mk_row (Text "level") (Text "low") Blank ] |}
           [ mk_row (Text "probability") (Text "甲") (Number 1) ]
           (mk_row (Text "severity") (Text "X") (Text "two"))
           [ mk_row (Text "level") (Text "low") Blank ]);
    try reflexivity.
  repeat constructor; eexists; reflexivity.
Defined.

Lemma sheet_without_known_rows_is_incomplete_witness :
  update_risk_model_from_excel
    (Sheet.workbook "risk.xls" [ mk_row (Text "levels") (Text "low") (Number 10) ])
    DEFAULT_RISK_MODEL
  = (Raise
       (HTTPException 400
          "配置不完整，您的Excel文件中缺少以下类型的数据行: probability, severity, levels。请检查'类型'列是否存在拼写错误或缺少对应行。"),
     DEFAULT_RISK_MODEL).
Proof.
  apply (sheet_without_known_rows_is_incomplete
           (Sheet.workbook "risk.xls" [ mk_row (Text "levels") (Text "low") (Number 10) ])
           DEFAULT_RISK_MODEL
           {| columns := required_columns;
              rows := [ mk_row (Text "levels") (Text "low") (Number 10) ] |});
    try reflexivity.
  - repeat constructor; eexists; reflexivity.
  - repeat constructor.
Defined.
